(** * The property-collection update handler (src/pages/api/update-and-deploy.js)

    A shallow embedding of the [POST] request handler and of the values it
    works on, followed by the properties of the handler that the reference
    contract states.

    The handler is sequential JavaScript: it awaits a handful of calls to
    services outside the repository (the auth provider, the blob store, the
    redeploy hook) and answers with one [Response].  It is modelled as a
    function of the request and of a [World] that fixes what each outside
    call settles to; the function returns the response together with the
    list of outside calls that were made, in order. *)

From Stdlib Require Import List String Ascii ZArith Bool Lia DecimalString.
Import ListNotations.
Local Open Scope list_scope.
Local Open Scope string_scope.

(** ** Completions *)

(** A thrown JavaScript error: its [name] and its [message]. *)
Record JsError : Type := mkError { err_name : string; err_message : string }.

Definition TypeError (msg : string) : JsError := mkError "TypeError" msg.
Definition SyntaxError (msg : string) : JsError := mkError "SyntaxError" msg.

(** What evaluating an expression, or awaiting a promise, comes to: a value,
    or a thrown error (a rejected promise). *)
Inductive result (A : Type) : Type :=
| Ok (a : A)
| Err (e : JsError).
Arguments Ok {A} a.
Arguments Err {A} e.

Definition rbind {A B : Type} (m : result A) (k : A -> result B) : result B :=
  match m with
  | Ok a => k a
  | Err e => Err e
  end.

Notation "'let*' x ':=' m 'in' k" := (rbind m (fun x => k))
  (at level 10, x name, m at level 200, k at level 200).

Definition is_ok {A : Type} (m : result A) : bool :=
  match m with Ok _ => true | Err _ => false end.

(** ** JavaScript values *)

Local Set Warnings "-register-all".

Section Values.

(** The Number type of the engine: what a JSON number literal parses to. *)
Variable number : Type.

(** The values the handler meets: what [JSON.parse] and [request.json()]
    produce, and [undefined] for a member that is not there.  An object is
    the list of its own properties, in property order. *)
Inductive value : Type :=
| VUndefined
| VNull
| VBool (b : bool)
| VNum (n : number)
| VStr (s : string)
| VArr (items : list value)
| VObj (members : list (string * value)).

End Values.

Arguments VUndefined {number}.
Arguments VNull {number}.
Arguments VBool {number} b.
Arguments VNum {number} n.
Arguments VStr {number} s.
Arguments VArr {number} items.
Arguments VObj {number} members.

(** The built-ins of the engine that the handler calls and that are not
    written out here: the Number conversions and the JSON codec. *)
Class Runtime (number : Type) : Type := {
  (** ToBoolean on a Number: [false] for [+0], [-0] and [NaN] only. *)
  Number_toBoolean : number -> bool;
  (** Number::toString, radix 10. *)
  Number_toString : number -> string;
  (** [JSON.parse(text)]: the parsed value, or the SyntaxError thrown. *)
  JSON_parse : string -> result (value number);
  (** [JSON.stringify(v, null, indent)] for a value [v] that serialises to
      text; [JSON.stringify(v)] is indent [0]. *)
  JSON_stringify : value number -> nat -> string
}.

(** ** String built-ins *)

(** [s.startsWith(p)]. *)
Definition startsWith (s p : string) : bool := String.prefix p s.

(** [s.split(sep)] for a one-character separator: never the empty list. *)
Fixpoint split (sep : ascii) (s : string) : list string :=
  match s with
  | EmptyString => [""]
  | String c rest =>
      if Ascii.eqb c sep then "" :: split sep rest
      else match split sep rest with
           | piece :: pieces => String c piece :: pieces
           | [] => [String c ""]
           end
  end.

(** White space and line terminators, in the ASCII range. *)
Definition is_space (c : ascii) : bool :=
  let n := nat_of_ascii c in
  ((9 <=? n)%nat && (n <=? 13)%nat) || (n =? 32)%nat.

Fixpoint trimStart (s : string) : string :=
  match s with
  | EmptyString => ""
  | String c rest => if is_space c then trimStart rest else s
  end.

Fixpoint trimEnd (s : string) : string :=
  match s with
  | EmptyString => ""
  | String c rest =>
      match trimEnd rest with
      | EmptyString => if is_space c then "" else String c ""
      | kept => String c kept
      end
  end.

(** [s.trim()] on a text in the ASCII range.  Beyond that range the engine
    also strips white space that this leaves in place (U+00A0, U+FEFF, the
    Unicode space separators, U+2028 and U+2029). *)
Definition trim (s : string) : string := trimEnd (trimStart s).

Definition lower (c : ascii) : ascii :=
  let n := nat_of_ascii c in
  if ((65 <=? n)%nat && (n <=? 90)%nat)%bool then ascii_of_nat (n + 32) else c.

(** [s.toLowerCase()] on a text in the ASCII range.  Beyond that range the
    engine also lower-cases letters that this leaves as they are. *)
Fixpoint toLowerCase (s : string) : string :=
  match s with
  | EmptyString => ""
  | String c rest => String (lower c) (toLowerCase rest)
  end.

(** [list.includes(s)] on a list of strings. *)
Definition includes (l : list string) (s : string) : bool :=
  existsb (String.eqb s) l.

(** A string-or-missing operand ([undefined], [null]) in a boolean test. *)
Definition truthy_str (o : option string) : bool :=
  match o with
  | Some s => negb (s =? "")
  | None => false
  end.

(** [a || b] where both are string-or-missing. *)
Definition or_str (a b : option string) : option string :=
  if truthy_str a then a else b.

(** [a || ''] where [a] is string-or-missing. *)
Definition or_empty (a : option string) : string :=
  match a with
  | Some s => s
  | None => ""
  end.

(** ** Operations on values *)

Section Operations.

Context {number : Type} `{Runtime number}.

#[local] Abbreviation value := (value number).

(** ToBoolean. *)
Definition truthy (v : value) : bool :=
  match v with
  | VUndefined | VNull => false
  | VBool b => b
  | VNum n => Number_toBoolean n
  | VStr s => negb (s =? "")
  | VArr _ | VObj _ => true
  end.

(** The own property [key] of an object, [undefined] when it has none. *)
Fixpoint own (members : list (string * value)) (key : string) : value :=
  match members with
  | [] => VUndefined
  | (k, v) :: rest => if k =? key then v else own rest key
  end.

Definition has_own (members : list (string * value)) (key : string) : bool :=
  existsb (fun kv => fst kv =? key) members.

(** [v.key], for the member names the handler reads ([id], [action],
    [property]); no built-in prototype defines them, so only an object's own
    property can answer, and reading a member of [null] or [undefined]
    throws. *)
Definition Get (v : value) (key : string) : result value :=
  match v with
  | VUndefined =>
      Err (TypeError ("Cannot read properties of undefined (reading '" ++ key ++ "')"))
  | VNull =>
      Err (TypeError ("Cannot read properties of null (reading '" ++ key ++ "')"))
  | VObj members => Ok (own members key)
  | _ => Ok VUndefined
  end.

(** [String(v)].  An array joins the strings of its elements with commas,
    [null] and [undefined] elements giving the empty string.  A plain
    object answers through [Object.prototype.toString], unless an own
    [toString] property (never callable in parsed JSON) shadows it, in which
    case no conversion to a primitive exists and a TypeError is thrown. *)
Fixpoint ToString (v : value) : result string :=
  match v with
  | VUndefined => Ok "undefined"
  | VNull => Ok "null"
  | VBool true => Ok "true"
  | VBool false => Ok "false"
  | VNum n => Ok (Number_toString n)
  | VStr s => Ok s
  | VArr items =>
      let element (x : value) : result string :=
        match x with
        | VUndefined | VNull => Ok ""
        | _ => ToString x
        end in
      (fix join (l : list value) : result string :=
         match l with
         | [] => Ok ""
         | [x] => element x
         | x :: rest =>
             let* s := element x in
             let* t := join rest in
             Ok (s ++ "," ++ t)
         end) items
  | VObj members =>
      if has_own members "toString"
      then Err (TypeError "Cannot convert object to primitive value")
      else Ok "[object Object]"
  end.

(** [a === b] where [b] is a string literal. *)
Definition strict_eq_str (a : value) (lit : string) : bool :=
  match a with
  | VStr s => s =? lit
  | _ => false
  end.

(** [String(p.id)]. *)
Definition id_string (p : value) : result string :=
  let* i := Get p "id" in ToString i.

(** [const { action, property } = body]. *)
Definition destructure (body : value) : result (value * value) :=
  match body with
  | VUndefined =>
      Err (TypeError "Cannot destructure property 'action' of 'body' as it is undefined.")
  | VNull =>
      Err (TypeError "Cannot destructure property 'action' of 'body' as it is null.")
  | _ =>
      let* action := Get body "action" in
      let* property := Get body "property" in
      Ok (action, property)
  end.

(** The error thrown on calling an array method on [props] when [props] is
    not an array. *)
Definition not_an_array (props : value) (method : string) : JsError :=
  match props with
  | VUndefined =>
      TypeError ("Cannot read properties of undefined (reading '" ++ method ++ "')")
  | VNull =>
      TypeError ("Cannot read properties of null (reading '" ++ method ++ "')")
  | _ => TypeError ("props." ++ method ++ " is not a function")
  end.

(** [items.map(f)], the callback run on each element in order. *)
Fixpoint Array_map (f : value -> result value) (items : list value)
  : result (list value) :=
  match items with
  | [] => Ok []
  | p :: rest =>
      let* q := f p in
      let* qs := Array_map f rest in
      Ok (q :: qs)
  end.

(** [items.filter(f)], the callback run on each element in order. *)
Fixpoint Array_filter (f : value -> result bool) (items : list value)
  : result (list value) :=
  match items with
  | [] => Ok []
  | p :: rest =>
      let* keep := f p in
      let* qs := Array_filter f rest in
      Ok (if keep then p :: qs else qs)
  end.

(** [props.push(property)]. *)
Definition add (props property : value) : result value :=
  match props with
  | VArr items => Ok (VArr (items ++ [property])%list)
  | _ => Err (not_an_array props "push")
  end.

(** [props.map(p => String(p.id) === String(property.id) ? property : p)]. *)
Definition edit (props property : value) : result value :=
  match props with
  | VArr items =>
      let* items' :=
        Array_map (fun p =>
                     let* a := id_string p in
                     let* b := id_string property in
                     Ok (if a =? b then property else p)) items in
      Ok (VArr items')
  | _ => Err (not_an_array props "map")
  end.

(** [props.filter(p => String(p.id) !== String(property.id))]. *)
Definition delete (props property : value) : result value :=
  match props with
  | VArr items =>
      let* items' :=
        Array_filter (fun p =>
                        let* a := id_string p in
                        let* b := id_string property in
                        Ok (negb (a =? b))) items in
      Ok (VArr items')
  | _ => Err (not_an_array props "filter")
  end.

End Operations.

(** ** The request, the response and the world outside *)

(** The [Request] as far as the handler reads it: what [request.json()]
    settles to, and [request.headers.get(name)]. *)
Record Request {number : Type} : Type := {
  request_json : result (value number);
  headers_get : string -> option string
}.
Arguments Request number : clear implicits.

(** [new Response(body, { status, headers })]. *)
Record Response : Type := {
  status : Z;
  body : string;
  headers : list (string * string)
}.

(** The [user] of [auth.getUser]; [email] may be missing. *)
Record User : Type := { user_email : option string }.

Record UserData : Type := { ud_user : option User }.

(** What [auth.getUser(token)] resolves to: [{ data, error }]. *)
Record UserResponse : Type := {
  ur_data : option UserData;
  ur_error : option JsError
}.

(** An error object of the storage client; [status] may be missing. *)
Record StorageError : Type := {
  se_status : option Z;
  se_message : string
}.

(** A downloaded blob, as far as the handler reads it: [await blob.text()]. *)
Record Blob : Type := { blob_text : string }.

(** What [storage.from(bucket).download(file)] resolves to. *)
Record DownloadResult : Type := {
  dl_data : option Blob;
  dl_error : option StorageError
}.

(** What [storage.from(bucket).upload(file, blob, { upsert: true })] resolves
    to; the blob is given by its text. *)
Record UploadResult : Type := { ul_error : option StorageError }.

(** A client made by [createClient]: the three calls the handler makes on it. *)
Record Client : Type := {
  auth_getUser : string -> result UserResponse;
  storage_download : string -> string -> result DownloadResult;
  storage_upload : string -> string -> string -> result UploadResult
}.

(** Everything outside the handler: [process.env], the client library and
    [fetch(url, { method: 'POST' })]. *)
Record World : Type := {
  env : string -> option string;
  createClient : string -> string -> result Client;
  fetch : string -> result unit
}.

(** The calls that leave the process, as they are made. *)
Inductive Event : Type :=
| EGetUser (token : string)
| EDownload (bucket file : string)
| EUpload (bucket file content : string)
| EFetch (url : string)
| EWarn (label : string) (e : JsError).

(** ** The handler monad

    A step of the handler either goes on with a value, leaves the handler
    through [return new Response(..)], or throws; and it records the outside
    calls it made. *)

Inductive outcome (A : Type) : Type :=
| Next (a : A)
| Return (r : Response)
| Throw (e : JsError).
Arguments Next {A} a.
Arguments Return {A} r.
Arguments Throw {A} e.

Definition M (A : Type) : Type := (outcome A * list Event)%type.

Definition ret {A : Type} (a : A) : M A := (Next a, []).

Definition bind {A B : Type} (m : M A) (k : A -> M B) : M B :=
  match m with
  | (Next a, log) => let (o, log') := k a in (o, (log ++ log')%list)
  | (Return r, log) => (Return r, log)
  | (Throw e, log) => (Throw e, log)
  end.

Notation "x <- m ;; k" := (bind m (fun x => k))
  (at level 61, m at next level, right associativity).
Notation "' pat <- m ;; k" := (bind m (fun x => match x with pat => k end))
  (at level 61, pat pattern, m at next level, right associativity).
Notation "m ;; k" := (bind m (fun _ => k))
  (at level 61, right associativity).

(** [return new Response(..)]. *)
Definition reply {A : Type} (r : Response) : M A := (Return r, []).

(** [await e], and the evaluation of an expression that may throw. *)
Definition await {A : Type} (m : result A) : M A :=
  match m with
  | Ok a => (Next a, [])
  | Err e => (Throw e, [])
  end.

Definition emit (e : Event) : M unit := (Next tt, [e]).

(** ** The handler *)

Section Handler.

Context {number : Type} `{Runtime number}.

#[local] Abbreviation value := (value number).

(** [new Response(JSON.stringify({ error: msg }), { status })]. *)
Definition error_response (st : Z) (msg : string) : Response :=
  {| status := st;
     body := JSON_stringify (VObj [("error", VStr msg)]) 0;
     headers := [] |}.

(** The response of the success path. *)
Definition ok_response : Response :=
  {| status := 200;
     body := JSON_stringify (VObj [("ok", VBool true)]) 0;
     headers := [("Content-Type", "application/json")] |}.

(** [authHeader.startsWith('Bearer ') ? authHeader.split(' ')[1] : null] on
    [request.headers.get('authorization') || '']. *)
Definition get_token (req : Request number) : option string :=
  let authHeader := or_empty (headers_get req "authorization") in
  if startsWith authHeader "Bearer "
  then nth_error (split " " authHeader) 1
  else None.

Definition SUPABASE_URL (w : World) : option string :=
  or_str (env w "VITE_SUPABASE_URL") (env w "SUPABASE_URL").

Definition SUPABASE_ANON (w : World) : option string :=
  or_str (env w "VITE_SUPABASE_ANON_KEY") (env w "SUPABASE_ANON_KEY").

Definition SUPABASE_SERVICE_ROLE (w : World) : option string :=
  env w "SUPABASE_SERVICE_ROLE_KEY".

Definition VERCEL_HOOK (w : World) : string :=
  or_empty (env w "VERCEL_DEPLOY_HOOK").

Definition ADMIN_EMAILS (w : World) : list string :=
  map (fun s => toLowerCase (trim s)) (split "," (or_empty (env w "ADMIN_EMAILS"))).

Definition BUCKET : string := "properties".
Definition FILE : string := "properties.json".

(** [userData?.user]. *)
Definition optional_user (data : option UserData) : option User :=
  match data with
  | Some d => ud_user d
  | None => None
  end.

(** [downloadError.status !== 404]. *)
Definition status_is_not (e : StorageError) (code : Z) : bool :=
  match se_status e with
  | Some st => negb (st =? code)%Z
  | None => true
  end.

(** From the start of the handler to the admin check: the request body for
    an admin, an early response for anyone else. *)
Definition authorize (w : World) (req : Request number) : M value :=
  body <- await (request_json req) ;;
  let token := get_token req in
  if negb (truthy_str token)
  then reply (error_response 401 "Unauthorized - missing token")
  else
  if negb (truthy_str (SUPABASE_URL w)) || negb (truthy_str (SUPABASE_ANON w))
     || negb (truthy_str (SUPABASE_SERVICE_ROLE w))
  then reply (error_response 500 "Server misconfiguration")
  else
  supabaseForAuth <-
    await (createClient w (or_empty (SUPABASE_URL w)) (or_empty (SUPABASE_ANON w))) ;;
  emit (EGetUser (or_empty token)) ;;
  r <- await (auth_getUser supabaseForAuth (or_empty token)) ;;
  match ur_error r, optional_user (ur_data r) with
  | None, Some user =>
      let userEmail := toLowerCase (or_empty (user_email user)) in
      if negb (includes (ADMIN_EMAILS w) userEmail)
      then reply (error_response 403 "Forbidden - not an admin")
      else ret body
  | _, _ => reply (error_response 401 "Invalid token")
  end.

(** Steps 2 and 3: the admin client and the current collection. *)
Definition download_props (w : World) : M (Client * value) :=
  supabaseAdmin <-
    await (createClient w (or_empty (SUPABASE_URL w))
             (or_empty (SUPABASE_SERVICE_ROLE w))) ;;
  emit (EDownload BUCKET FILE) ;;
  r <- await (storage_download supabaseAdmin BUCKET FILE) ;;
  match dl_error r with
  | Some downloadError =>
      if status_is_not downloadError 404
      then reply (error_response 500
                    ("Failed to read properties.json: " ++ se_message downloadError))
      else ret tt
  | None => ret tt
  end ;;
  props <-
    match dl_data r with
    | Some downloadData =>
        let txt := blob_text downloadData in
        if negb (txt =? "") then await (JSON_parse txt) else ret (VArr [])
    | None => ret (VArr [])
    end ;;
  ret (supabaseAdmin, props).

(** Step 4: the change asked for, applied to the collection. *)
Definition apply_change (body props : value) : M value :=
  '(action, property) <- await (destructure body) ;;
  if negb (truthy action) || negb (truthy property)
  then reply (error_response 400 "Bad request")
  else
  if strict_eq_str action "add" then await (add props property)
  else if strict_eq_str action "edit" then await (edit props property)
  else if strict_eq_str action "delete" then await (delete props property)
  else reply (error_response 400 "Unknown action").

(** Step 5: the collection written back. *)
Definition upload_back (supabaseAdmin : Client) (props : value) : M unit :=
  let blob := JSON_stringify props 2 in
  emit (EUpload BUCKET FILE blob) ;;
  r <- await (storage_upload supabaseAdmin BUCKET FILE blob) ;;
  match ul_error r with
  | Some uploadError =>
      reply (error_response 500 ("Upload failed: " ++ se_message uploadError))
  | None => ret tt
  end.

(** Step 6: the deploy hook, inside its own [try]/[catch]. *)
Definition trigger_hook (w : World) : M unit :=
  if negb (VERCEL_HOOK w =? "")
  then
    emit (EFetch (VERCEL_HOOK w)) ;;
    match fetch w (VERCEL_HOOK w) with
    | Ok _ => ret tt
    | Err e => emit (EWarn "Vercel hook failed" e)
    end
  else ret tt.

(** The handler up to and including the upload. *)
Definition store_change (w : World) (req : Request number) : M unit :=
  body <- authorize w req ;;
  '(supabaseAdmin, props) <- download_props w ;;
  props' <- apply_change body props ;;
  upload_back supabaseAdmin props'.

(** The body of the outer [try]. *)
Definition POST_try (w : World) (req : Request number) : M Response :=
  store_change w req ;;
  trigger_hook w ;;
  ret ok_response.

(** [err.message || String(err)] for a thrown error; the string of an error
    without message is its name. *)
Definition error_text (err : JsError) : string :=
  if negb (err_message err =? "") then err_message err else err_name err.

(** The handler: the response, and the outside calls made on the way. *)
Definition POST (w : World) (req : Request number) : Response * list Event :=
  match POST_try w req with
  | (Next r, log) => (r, log)
  | (Return r, log) => (r, log)
  | (Throw err, log) => (error_response 500 (error_text err), log)
  end.

(** The texts handed to [upload], in order. *)
Definition uploads (log : list Event) : list string :=
  flat_map (fun e => match e with
                     | EUpload _ _ content => [content]
                     | _ => []
                     end) log.

End Handler.

Arguments uploads : simpl never.

(** ** The client module (src/lib/supabaseServer.js)

    The module reads two values of [import.meta.env], throws while it loads
    when one of them is missing or empty, and exports the client made from
    them. *)

(** [new Error(msg)]. *)
Definition Error (msg : string) : JsError := mkError "Error" msg.

(** What loading the module comes to: the exported [supabase], or the error
    thrown at load time. *)
Definition supabase (meta_env : string -> option string)
    (createClient : string -> string -> result Client) : result Client :=
  let url := meta_env "VITE_SUPABASE_URL" in
  let key := meta_env "VITE_SUPABASE_ANON_KEY" in
  if negb (truthy_str url) || negb (truthy_str key)
  then Err (Error "Missing SUPABASE env vars")
  else createClient (or_empty url) (or_empty key).

(** ** A runtime to run the handler on

    The theorems below hold for whatever the engine's built-ins are.  To run
    the handler on examples, [Fixture] supplies one runtime: the numbers are
    the integers, written in decimal; [JSON.stringify] is written out for the
    values over them; and [JSON.parse] reads back the documents of a small
    library, each from the text [JSON.stringify] gives it. *)

Module Fixture.

Definition newline : string := String (ascii_of_nat 10) "".

Definition hex_digit (n : nat) : ascii :=
  match n with
  | 0 => "0" | 1 => "1" | 2 => "2" | 3 => "3" | 4 => "4" | 5 => "5"
  | 6 => "6" | 7 => "7" | 8 => "8" | 9 => "9" | 10 => "a" | 11 => "b"
  | 12 => "c" | 13 => "d" | 14 => "e" | _ => "f"
  end%char.

(** The text of one character inside a JSON string literal. *)
Definition quote_char (c : ascii) : string :=
  let n := nat_of_ascii c in
  if (n =? 34)%nat then String "\" (String c "")
  else if (n =? 92)%nat then "\\"
  else if (n =? 8)%nat then "\b"
  else if (n =? 12)%nat then "\f"
  else if (n =? 10)%nat then "\n"
  else if (n =? 13)%nat then "\r"
  else if (n =? 9)%nat then "\t"
  else if (n <? 32)%nat
       then "\u00" ++ String (hex_digit (n / 16)) (String (hex_digit (n mod 16)) "")
  else String c "".

Fixpoint quote_chars (s : string) : string :=
  match s with
  | EmptyString => ""
  | String c rest => quote_char c ++ quote_chars rest
  end.

Definition quote (s : string) : string :=
  String (ascii_of_nat 34) (quote_chars s) ++ String (ascii_of_nat 34) "".

Definition decimal (n : Z) : string :=
  DecimalString.NilZero.string_of_int (Z.to_int n).

Definition is_undefined (v : value Z) : bool :=
  match v with
  | VUndefined => true
  | _ => false
  end.

(** [JSON.stringify] with the indentation unit [gap], at indentation [ind]. *)
Fixpoint show (gap ind : string) (v : value Z) {struct v} : string :=
  let inner := ind ++ gap in
  let wrap (l r : string) (parts : list string) : string :=
    match parts with
    | [] => l ++ r
    | _ =>
        if gap =? "" then l ++ String.concat "," parts ++ r
        else l ++ newline ++ inner
               ++ String.concat ("," ++ newline ++ inner) parts
               ++ newline ++ ind ++ r
    end in
  match v with
  | VUndefined | VNull => "null"
  | VBool true => "true"
  | VBool false => "false"
  | VNum n => decimal n
  | VStr s => quote s
  | VArr items => wrap "[" "]" (map (show gap inner) items)
  | VObj members =>
      wrap "{" "}"
        (flat_map (fun kv : string * value Z =>
                     let (k, x) := kv in
                     if is_undefined x then []
                     else [quote k ++ (if gap =? "" then ":" else ": ")
                             ++ show gap inner x]) members)
  end.

Fixpoint spaces (n : nat) : string :=
  match n with
  | O => ""
  | S k => String " " (spaces k)
  end.

Definition stringify (v : value Z) (indent : nat) : string :=
  show (spaces indent) "" v.

Definition num (n : Z) : value Z := VNum n.

(** The documents [parse] knows. *)
Definition library : list (value Z) :=
  [ VArr [];
    VArr [VObj [("id", VStr "1"); ("title", VStr "A")]];
    VArr [VObj [("id", VStr "1"); ("x", num 1)]; VObj [("id", VStr "2"); ("x", num 2)]];
    VArr [VObj [("id", num 1); ("x", num 1)]; VObj [("id", VStr "1"); ("x", num 2)]];
    VArr [VNull; VObj [("id", VStr "1"); ("x", num 1)]] ].

Definition parse (txt : string) : result (value Z) :=
  match find (fun v => (stringify v 2 =? txt) || (stringify v 0 =? txt)) library with
  | Some v => Ok v
  | None => Err (SyntaxError "Unexpected token in JSON")
  end.

#[export] Instance runtime : Runtime Z := {|
  Number_toBoolean := fun n => negb (n =? 0)%Z;
  Number_toString := decimal;
  JSON_parse := parse;
  JSON_stringify := stringify
|}.

(** A storage client: who the token belongs to, what is on file, and what
    an upload answers. *)
Definition client (user : UserResponse) (on_file : DownloadResult)
    (uploaded : UploadResult) : Client :=
  {| auth_getUser := fun _ => Ok user;
     storage_download := fun _ _ => Ok on_file;
     storage_upload := fun _ _ _ => Ok uploaded |}.

(** A configured deployment with the given allowlist and hook. *)
Definition world (admins hook : option string) (c : Client)
    (hooked : result unit) : World :=
  {| env := fun name =>
       if name =? "VITE_SUPABASE_URL" then Some "https://project.supabase.co"
       else if name =? "VITE_SUPABASE_ANON_KEY" then Some "anon-key"
       else if name =? "SUPABASE_SERVICE_ROLE_KEY" then Some "service-role-key"
       else if name =? "VERCEL_DEPLOY_HOOK" then hook
       else if name =? "ADMIN_EMAILS" then admins
       else None;
     createClient := fun _ _ => Ok c;
     fetch := fun _ => hooked |}.

Definition request (authorization : option string) (json : result (value Z))
  : Request Z :=
  {| request_json := json;
     headers_get := fun name =>
       if name =? "authorization" then authorization else None |}.

Definition admin : UserResponse :=
  {| ur_data := Some {| ud_user := Some {| user_email := Some "Admin@Example.com" |} |};
     ur_error := None |}.

Definition no_email : UserResponse :=
  {| ur_data := Some {| ud_user := Some {| user_email := None |} |};
     ur_error := None |}.

Definition file (txt : string) : DownloadResult :=
  {| dl_data := Some {| blob_text := txt |}; dl_error := None |}.

Definition failed (st : option Z) (msg : string) : DownloadResult :=
  {| dl_data := None;
     dl_error := Some {| se_status := st; se_message := msg |} |}.

Definition stored : UploadResult := {| ul_error := None |}.

(** The usual deployment: one admin, a hook, a working store holding [txt]. *)
Definition site (txt : string) : World :=
  world (Some "admin@example.com, owner@example.com")
    (Some "https://api.vercel.com/hook")
    (client admin (file txt) stored) (Ok tt).

(** The same deployment with a hook that cannot be reached. *)
Definition site_unhooked (txt : string) : World :=
  world (Some "admin@example.com, owner@example.com")
    (Some "https://api.vercel.com/hook")
    (client admin (file txt) stored) (Err (TypeError "fetch failed")).

(** A deployment without [ADMIN_EMAILS], visited by a user without e-mail. *)
Definition site_open (txt : string) : World :=
  world None (Some "https://api.vercel.com/hook")
    (client no_email (file txt) stored) (Ok tt).

(** A deployment whose download answers with an error. *)
Definition site_unread (st : option Z) (msg : string) : World :=
  world (Some "admin@example.com, owner@example.com")
    (Some "https://api.vercel.com/hook")
    (client admin (failed st msg) stored) (Ok tt).

Definition change (action : string) (property : value Z) : value Z :=
  VObj [("action", VStr action); ("property", property)].

Definition signed (json : value Z) : Request Z :=
  request (Some "Bearer token-of-admin") (Ok json).

(** A request without Authorization header whose body is not JSON. *)
Definition unsigned_unparsed : Request Z :=
  request None (Err (SyntaxError "Unexpected end of JSON input")).

(** A deployment whose upload is refused by the store. *)
Definition site_unwritable (txt msg : string) : World :=
  world (Some "admin@example.com, owner@example.com")
    (Some "https://api.vercel.com/hook")
    (client admin (file txt)
       {| ul_error := Some {| se_status := Some 413%Z; se_message := msg |} |})
    (Ok tt).

(** A deployment with the given allowlist, visited by the given user. *)
Definition site_for (admins : option string) (user : UserResponse) : World :=
  world admins (Some "https://api.vercel.com/hook")
    (client user (file "[]") stored) (Ok tt).

(** A deployment without the service role key. *)
Definition site_keyless : World :=
  {| env := fun name =>
       if name =? "VITE_SUPABASE_URL" then Some "https://project.supabase.co"
       else if name =? "VITE_SUPABASE_ANON_KEY" then Some "anon-key"
       else None;
     createClient := fun _ _ => Ok (client admin (file "[]") stored);
     fetch := fun _ => Ok tt |}.

Definition expired : UserResponse :=
  {| ur_data := Some {| ud_user := None |};
     ur_error := Some (mkError "AuthApiError" "invalid JWT") |}.

Definition visitor : UserResponse :=
  {| ur_data := Some {| ud_user := Some {| user_email := Some "guest@example.com" |} |};
     ur_error := None |}.

(** The same runtime over another library of documents. *)
Definition runtime_among (docs : list (value Z)) : Runtime Z :=
  {| Number_toBoolean := fun n => negb (n =? 0)%Z;
     Number_toString := decimal;
     JSON_parse := fun txt =>
       match find (fun v => (stringify v 2 =? txt) || (stringify v 0 =? txt)) docs with
       | Some v => Ok v
       | None => Err (SyntaxError "Unexpected token in JSON")
       end;
     JSON_stringify := stringify |}.

(** A property whose id shadows [toString]. *)
Definition shadowed : value Z :=
  VObj [("id", VObj [("toString", num 1)]); ("x", num 3)].

(** The collections and properties of the examples. *)
Definition first : value Z := VObj [("id", VStr "1"); ("x", num 1)].
Definition second : value Z := VObj [("id", VStr "2"); ("x", num 2)].
Definition revised : value Z := VObj [("id", VStr "1"); ("x", num 99)].
Definition titled : value Z := VObj [("id", VStr "1"); ("title", VStr "A")].
Definition numbered : value Z := VObj [("id", num 1); ("x", num 1)].
Definition lettered : value Z := VObj [("id", VStr "1"); ("x", num 2)].
Definition only_id (id : string) : value Z := VObj [("id", VStr id)].

End Fixture.

(** * Properties of the handler *)

(** A text in the ASCII range: every character is below 128.  On such a
    text [trim] and [toLowerCase] are the engine's. *)
Fixpoint is_ascii (s : string) : bool :=
  match s with
  | EmptyString => true
  | String c rest => (nat_of_ascii c <? 128)%nat && is_ascii rest
  end.

(** The text up to the first space. *)
Fixpoint first_word (s : string) : string :=
  match s with
  | EmptyString => ""
  | String c rest => if Ascii.eqb c " " then "" else String c (first_word rest)
  end.

(** The place of an outside call in the order of the handler's steps. *)
Definition call_rank (e : Event) : nat :=
  match e with
  | EGetUser _ => 0
  | EDownload _ _ => 1
  | EUpload _ _ _ => 2
  | EFetch _ => 3
  | EWarn _ _ => 4
  end.

(** The urls the deploy hook was posted to, in order. *)
Definition fetches (log : list Event) : list string :=
  flat_map (fun e => match e with
                     | EFetch url => [url]
                     | _ => []
                     end) log.

(** Splits on the innermost thing the goal still branches on. *)
Ltac split_match :=
  match goal with
  | |- context [match ?x with _ => _ end] =>
      lazymatch x with
      | context [match _ with _ => _ end] => fail
      | _ => destruct x eqn:?
      end
  end.

Ltac run := cbn; repeat (split_match; cbn); try reflexivity; try congruence.

Section Facts.

Context {number : Type} `{Runtime number}.

#[local] Abbreviation value := (value number).

(** [String(p.id)] is [key]. *)
Definition id_is (key : string) (p : value) : bool :=
  match id_string p with
  | Ok k => k =? key
  | Err _ => false
  end.

(** [String(p.id)] evaluates, rather than throws. *)
Definition coercible (p : value) : Prop := is_ok (id_string p) = true.

(** The records of the data model: an object whose [id] is a primitive value
    or is missing. *)
Definition plain_id (p : value) : bool :=
  match p with
  | VObj members =>
      match own members "id" with
      | VArr _ | VObj _ => false
      | _ => true
      end
  | _ => false
  end.

(** ** The monad *)

Lemma bind_next {A B : Type} (m : M A) (k : A -> M B) (a : A) (log : list Event) :
  m = (Next a, log) ->
  bind m k = (fst (k a), (log ++ snd (k a))%list).
Proof. intros ->. unfold bind. destruct (k a). reflexivity. Qed.

Lemma bind_return {A B : Type} (m : M A) (k : A -> M B) (r : Response)
    (log : list Event) :
  m = (Return r, log) -> bind m k = (Return r, log).
Proof. intros ->. reflexivity. Qed.

Lemma bind_throw {A B : Type} (m : M A) (k : A -> M B) (e : JsError)
    (log : list Event) :
  m = (Throw e, log) -> bind m k = (Throw e, log).
Proof. intros ->. reflexivity. Qed.

Lemma bind_await_ok {A B : Type} (a : A) (k : A -> M B) :
  bind (await (Ok a)) k = k a.
Proof. unfold bind, await. now destruct (k a). Qed.

Lemma uploads_app (l1 l2 : list Event) :
  uploads (l1 ++ l2) = (uploads l1 ++ uploads l2)%list.
Proof. unfold uploads. apply flat_map_app. Qed.

Lemma uploads_bind {A B : Type} (m : M A) (k : A -> M B) :
  uploads (snd m) = [] ->
  (forall a, uploads (snd (k a)) = []) ->
  uploads (snd (bind m k)) = [].
Proof.
  intros Hm Hk. destruct m as [[a | r | e] log]; cbn in *; auto.
  specialize (Hk a). destruct (k a) as [o log']. cbn in *.
  rewrite uploads_app, Hm, Hk. reflexivity.
Qed.

Lemma await_silent {A : Type} (m : result A) : snd (await m) = [].
Proof. destruct m; reflexivity. Qed.

(** ** No step before the upload writes anything *)

Lemma authorize_no_upload (w : World) (req : Request number) :
  uploads (snd (authorize w req)) = [].
Proof.
  unfold authorize.
  apply uploads_bind; [now rewrite await_silent | intros body].
  destruct (negb (truthy_str (get_token req))); [reflexivity |].
  destruct (_ || _); [reflexivity |].
  apply uploads_bind; [now rewrite await_silent | intros c].
  apply uploads_bind; [reflexivity | intros _].
  apply uploads_bind; [now rewrite await_silent | intros r].
  run.
Qed.

Lemma download_props_no_upload (w : World) :
  uploads (snd (download_props w)) = [].
Proof.
  unfold download_props.
  apply uploads_bind; [now rewrite await_silent | intros c].
  apply uploads_bind; [reflexivity | intros _].
  apply uploads_bind; [now rewrite await_silent | intros r].
  apply uploads_bind; [run | intros _].
  apply uploads_bind; [| reflexivity].
  destruct (dl_data r); [| reflexivity].
  destruct (negb _); [now rewrite await_silent | reflexivity].
Qed.

Lemma apply_change_silent (body props : value) :
  snd (apply_change body props) = [].
Proof.
  unfold apply_change.
  destruct (destructure body) as [[action property] | e]; [| reflexivity].
  cbn. destruct (_ || _); [reflexivity |].
  repeat (destruct (strict_eq_str action _);
          [match goal with |- context [await ?m] => destruct m; reflexivity end |]).
  reflexivity.
Qed.

Lemma trigger_hook_next (w : World) : fst (trigger_hook w) = Next tt.
Proof. unfold trigger_hook. run. Qed.

Lemma trigger_hook_no_upload (w : World) : uploads (snd (trigger_hook w)) = [].
Proof. unfold trigger_hook. run. Qed.

(** ** From the stages to the handler *)

Lemma POST_stored (w : World) (req : Request number) (log : list Event) :
  store_change w req = (Next tt, log) ->
  POST w req = (ok_response, (log ++ snd (trigger_hook w))%list).
Proof.
  intros Hs. unfold POST, POST_try.
  rewrite (bind_next _ _ tt log Hs). cbn [fst snd].
  pose proof (trigger_hook_next w) as Hh.
  destruct (trigger_hook w) as [o hooklog]. cbn in Hh. subst o.
  cbn. now rewrite app_nil_r.
Qed.

Lemma POST_replied (w : World) (req : Request number) (r : Response)
    (log : list Event) :
  store_change w req = (Return r, log) -> POST w req = (r, log).
Proof.
  intros Hs. unfold POST, POST_try. now rewrite (bind_return _ _ r log Hs).
Qed.

Lemma POST_thrown (w : World) (req : Request number) (e : JsError)
    (log : list Event) :
  store_change w req = (Throw e, log) ->
  POST w req = (error_response 500 (error_text e), log).
Proof.
  intros Hs. unfold POST, POST_try. now rewrite (bind_throw _ _ e log Hs).
Qed.

(** Once the caller is authorized and the collection is read, the rest of
    [store_change] is the change followed by the upload. *)
Lemma store_change_from (w : World) (req : Request number) (body props : value)
    (c : Client) (l1 l2 : list Event) :
  authorize w req = (Next body, l1) ->
  download_props w = (Next (c, props), l2) ->
  store_change w req =
    (fst (props' <- apply_change body props ;; upload_back c props'),
     (l1 ++ l2 ++ snd (props' <- apply_change body props ;; upload_back c props'))%list).
Proof.
  intros Ha Hd. unfold store_change.
  rewrite (bind_next _ _ body l1 Ha). cbn [fst snd].
  rewrite (bind_next _ _ (c, props) l2 Hd). cbn [fst snd].
  reflexivity.
Qed.

(** A request whose change is refused answers with the refusal and writes
    nothing. *)
Lemma POST_refused (w : World) (req : Request number) (body props : value)
    (c : Client) (l1 l2 : list Event) (r : Response) :
  authorize w req = (Next body, l1) ->
  download_props w = (Next (c, props), l2) ->
  apply_change body props = (Return r, []) ->
  fst (POST w req) = r /\ uploads (snd (POST w req)) = [].
Proof.
  intros Ha Hd Hc.
  pose proof (store_change_from w req body props c l1 l2 Ha Hd) as Hs.
  rewrite (bind_return _ _ r [] Hc) in Hs. cbn [fst snd] in Hs.
  rewrite (POST_replied _ _ _ _ Hs). cbn [fst snd]. split; [reflexivity |].
  rewrite !uploads_app.
  pose proof (authorize_no_upload w req) as H1. rewrite Ha in H1.
  pose proof (download_props_no_upload w) as H2. rewrite Hd in H2.
  cbn [snd] in H1, H2. now rewrite H1, H2.
Qed.

(** A request whose change goes through uploads the changed collection, once,
    and answers [ok] when the store accepts it. *)
Lemma POST_changed (w : World) (req : Request number) (body props props' : value)
    (c : Client) (l1 l2 : list Event) :
  authorize w req = (Next body, l1) ->
  download_props w = (Next (c, props), l2) ->
  apply_change body props = (Next props', []) ->
  uploads (snd (POST w req)) = [JSON_stringify props' 2]
  /\ (storage_upload c BUCKET FILE (JSON_stringify props' 2)
        = Ok {| ul_error := None |} ->
      fst (POST w req) = ok_response).
Proof.
  intros Ha Hd Hc.
  pose proof (store_change_from w req body props c l1 l2 Ha Hd) as Hs.
  rewrite (bind_next _ _ props' [] Hc) in Hs. cbn [fst snd app] in Hs.
  pose proof (authorize_no_upload w req) as H1. rewrite Ha in H1.
  pose proof (download_props_no_upload w) as H2. rewrite Hd in H2.
  cbn [snd] in H1, H2.
  pose proof (trigger_hook_no_upload w) as H3.
  unfold upload_back in Hs.
  destruct (storage_upload c BUCKET FILE (JSON_stringify props' 2))
    as [[[e |]] | e] eqn:Hu; cbn in Hs.
  - rewrite (POST_replied _ _ _ _ Hs). cbn [snd].
    split; [| discriminate].
    rewrite !uploads_app, H1, H2. reflexivity.
  - rewrite (POST_stored _ _ _ Hs). cbn [fst snd].
    split; [| reflexivity].
    rewrite !uploads_app, H1, H2, H3. reflexivity.
  - rewrite (POST_thrown _ _ _ _ Hs). cbn [snd].
    split; [| discriminate].
    rewrite !uploads_app, H1, H2. reflexivity.
Qed.

(** ** Reading the request body *)

Lemma destructure_members (body action property : value) :
  Get body "action" = Ok action ->
  Get body "property" = Ok property ->
  destructure body = Ok (action, property).
Proof.
  intros Ha Hp. unfold destructure.
  destruct body; try discriminate; now rewrite Ha, Hp.
Qed.

Lemma strict_eq_str_spec (a : value) (lit : string) :
  strict_eq_str a lit = true <-> a = VStr lit.
Proof.
  unfold strict_eq_str. split.
  - destruct a; try discriminate. intros E. apply String.eqb_eq in E. now subst.
  - intros ->. apply String.eqb_refl.
Qed.

Lemma strict_eq_str_diff (a : value) (lit : string) :
  a <> VStr lit -> strict_eq_str a lit = false.
Proof.
  intros Hne. destruct (strict_eq_str a lit) eqn:E; [| reflexivity].
  apply strict_eq_str_spec in E. contradiction.
Qed.

(** An accepted request runs the array operation its action names. *)
Lemma apply_change_action (body props property : value) (action : string)
    (op : value -> value -> result value) :
  Get body "action" = Ok (VStr action) ->
  Get body "property" = Ok property ->
  truthy property = true ->
  (action = "add" /\ op = add) \/ (action = "edit" /\ op = edit)
    \/ (action = "delete" /\ op = delete) ->
  apply_change body props = await (op props property).
Proof.
  intros Ha Hp Ht Hop. unfold apply_change.
  rewrite (destructure_members _ _ _ Ha Hp), bind_await_ok.
  cbn beta iota. rewrite Ht.
  destruct Hop as [[-> ->] | [[-> ->] | [-> ->]]]; reflexivity.
Qed.

(** ** The array operations on a collection *)

Lemma edit_items (items : list value) (property : value) (key : string) :
  id_string property = Ok key ->
  Forall coercible items ->
  edit (VArr items) property
  = Ok (VArr (map (fun p => if id_is key p then property else p) items)).
Proof.
  intros Hk Hall. unfold edit.
  match goal with
  | |- rbind ?m _ = _ =>
      assert (m = Ok (map (fun p => if id_is key p then property else p) items))
        as ->; [| reflexivity]
  end.
  induction Hall as [| p rest Hp _ IH]; [reflexivity |].
  cbn [Array_map map]. rewrite IH.
  unfold coercible in Hp. unfold id_is.
  destruct (id_string p) as [k |]; [| discriminate].
  cbn. rewrite Hk. reflexivity.
Qed.

Lemma delete_items (items : list value) (property : value) (key : string) :
  id_string property = Ok key ->
  Forall coercible items ->
  delete (VArr items) property
  = Ok (VArr (filter (fun p => negb (id_is key p)) items)).
Proof.
  intros Hk Hall. unfold delete.
  match goal with
  | |- rbind ?m _ = _ =>
      assert (m = Ok (filter (fun p => negb (id_is key p)) items))
        as ->; [| reflexivity]
  end.
  induction Hall as [| p rest Hp _ IH]; [reflexivity |].
  cbn [Array_filter filter]. rewrite IH.
  unfold coercible in Hp. unfold id_is.
  destruct (id_string p) as [k |]; [| discriminate].
  cbn. rewrite Hk. cbn. destruct (k =? key); reflexivity.
Qed.

Lemma filter_twice {A : Type} (f : A -> bool) (l : list A) :
  filter f (filter f l) = filter f l.
Proof. apply forallb_filter_id, forallb_filter. Qed.

Lemma filter_untouched {A : Type} (f : A -> bool) (l : list A) :
  (forall x, In x l -> f x = true) -> filter f l = l.
Proof. intros Hin. apply forallb_filter_id, forallb_forall, Hin. Qed.

Lemma coercible_filter (f : value -> bool) (items : list value) :
  Forall coercible items -> Forall coercible (filter f items).
Proof.
  rewrite !Forall_forall. intros Hall p Hin.
  apply filter_In in Hin. now apply Hall.
Qed.

(** The id of every record of the data model has a string. *)
Lemma plain_id_coercible (p : value) : plain_id p = true -> coercible p.
Proof.
  unfold plain_id, coercible, id_string.
  destruct p as [| | | | | | members]; try discriminate. cbn.
  destruct (own members "id") as [| | [|] | | | |]; try discriminate; reflexivity.
Qed.

(** What [filter] kept, it keeps. *)
Lemma Array_filter_twice (f : value -> result bool) (items kept : list value) :
  Array_filter f items = Ok kept -> Array_filter f kept = Ok kept.
Proof.
  revert kept. induction items as [| p rest IH]; intros kept Hf; cbn in Hf.
  - injection Hf as <-. reflexivity.
  - destruct (f p) as [keep |] eqn:Hp; [| discriminate]. cbn in Hf.
    destruct (Array_filter f rest) as [qs |]; [| discriminate]. cbn in Hf.
    injection Hf as <-. specialize (IH qs eq_refl).
    destruct keep; [| exact IH].
    cbn. rewrite Hp. cbn. now rewrite IH.
Qed.

Lemma delete_twice (props property once : value) :
  delete props property = Ok once -> delete once property = Ok once.
Proof.
  unfold delete. destruct props as [| | | | | items |]; try discriminate.
  match goal with
  | |- rbind ?m _ = _ -> _ => destruct m as [kept |] eqn:Hf
  end; [| discriminate].
  cbn. intros Hd. injection Hd as <-.
  now rewrite (Array_filter_twice _ _ _ Hf).
Qed.

(** ** The three changes *)


(** C3, as the handler has it.  Over a collection whose elements, like the
    property, have an id that [String] converts, an authorized [edit]
    request writes the collection in which exactly the elements whose id, as a string, is the
    string of [property.id] are replaced by the property: same length, each
    position holding the property if its element matched and the old element
    otherwise; with no match the collection is written back unchanged, and
    every match is replaced, however many there are. *)
Theorem edit_replaces_matching (w : World) (req : Request number) (body : value)
    (supabaseAdmin : Client) (items : list value)
    (members : list (string * value)) (key : string) (l1 l2 : list Event) :
  authorize w req = (Next body, l1) ->
  download_props w = (Next (supabaseAdmin, VArr items), l2) ->
  Get body "action" = Ok (VStr "edit") ->
  Get body "property" = Ok (VObj members) ->
  id_string (VObj members) = Ok key ->
  Forall coercible items ->
  let written := map (fun p => if id_is key p then VObj members else p) items in
  uploads (snd (POST w req)) = [JSON_stringify (VArr written) 2]
  /\ List.length written = List.length items
  /\ (forall i p, nth_error items i = Some p ->
                  nth_error written i
                  = Some (if id_is key p then VObj members else p))
  /\ ((forall p, In p items -> id_is key p = false) -> written = items)
  /\ (forall p, In p items -> id_is key p = true -> In (VObj members) written).
Proof.
  intros Ha Hd Hact Hprop Hkey Hall written.
  assert (Hc : apply_change body (VArr items) = (Next (VArr written), [])).
  { rewrite (apply_change_action body (VArr items) (VObj members) "edit" edit);
      auto.
    now rewrite (edit_items items (VObj members) key Hkey Hall). }
  destruct (POST_changed w req body _ _ _ l1 l2 Ha Hd Hc) as [Hup _].
  split; [exact Hup |].
  split; [apply length_map |].
  split.
  { intros i p Hi. subst written. rewrite nth_error_map, Hi. reflexivity. }
  split.
  { intros Hnone. subst written. rewrite <- (map_id items) at 2.
    apply map_ext_in. intros p Hin. now rewrite (Hnone p Hin). }
  intros p Hin Hmatch. subst written. apply in_map_iff.
  exists p. now rewrite Hmatch.
Qed.

(** C4, as the handler has it.  Over a collection whose elements, like the
    property, have an id that [String] converts, an authorized [delete]
    request writes the collection without exactly the elements whose id, as a string, is the
    string of [property.id]; what remains keeps its order.  A number and the
    string of its text are the same id: deleting id "1" from
    [[{id:1,x:..},{id:"1",x:..}]] leaves the empty collection. *)
Theorem delete_removes_matching (w : World) (req : Request number) (body : value)
    (supabaseAdmin : Client) (items : list value)
    (members : list (string * value)) (key : string) (l1 l2 : list Event) :
  authorize w req = (Next body, l1) ->
  download_props w = (Next (supabaseAdmin, VArr items), l2) ->
  Get body "action" = Ok (VStr "delete") ->
  Get body "property" = Ok (VObj members) ->
  id_string (VObj members) = Ok key ->
  Forall coercible items ->
  let written := filter (fun p => negb (id_is key p)) items in
  uploads (snd (POST w req)) = [JSON_stringify (VArr written) 2]
  /\ (forall p, In p written <-> In p items /\ id_is key p = false)
  /\ (forall before after, items = (before ++ after)%list ->
        written = (filter (fun p => negb (id_is key p)) before
                   ++ filter (fun p => negb (id_is key p)) after)%list)
  /\ (forall (n : number) (others others' : list (string * value)),
        id_is (Number_toString n) (VObj (("id", VNum n) :: others)) = true
        /\ id_is (Number_toString n)
             (VObj (("id", VStr (Number_toString n)) :: others')) = true)
  /\ (forall (one : number) (x1 x2 : value),
        Number_toString one = "1" ->
        delete (VArr [VObj [("id", VNum one); ("x", x1)];
                      VObj [("id", VStr "1"); ("x", x2)]])
               (VObj [("id", VStr "1")])
        = Ok (VArr [])).
Proof.
  intros Ha Hd Hact Hprop Hkey Hall written.
  assert (Hc : apply_change body (VArr items) = (Next (VArr written), [])).
  { rewrite (apply_change_action body (VArr items) (VObj members) "delete" delete);
      auto.
    now rewrite (delete_items items (VObj members) key Hkey Hall). }
  destruct (POST_changed w req body _ _ _ l1 l2 Ha Hd Hc) as [Hup _].
  split; [exact Hup |].
  split.
  { intros p. subst written. rewrite filter_In, negb_true_iff. reflexivity. }
  split.
  { intros before after ->. apply filter_app. }
  split.
  { intros n others others'. unfold id_is. cbn.
    now rewrite String.eqb_refl. }
  intros one x1 x2 Hone. cbn. rewrite Hone. reflexivity.
Qed.

(** C6, as the handler has it.  Deleting an id is idempotent on every
    collection: deleting it from the result of deleting it gives that result
    again, and when the first [delete] throws, so does the pair, with the same
    error.  Over a collection whose elements, like the property, have an id
    that [String] converts, deleting an id that no element has leaves the
    collection as it was, and such a request writes that same collection back
    and answers [ok] when the store accepts the upload. *)
Theorem delete_idempotent (items : list value) (members : list (string * value)) :
  (let* once := delete (VArr items) (VObj members) in delete once (VObj members))
  = delete (VArr items) (VObj members)
  /\ (forall once, delete (VArr items) (VObj members) = Ok once ->
                   delete once (VObj members) = Ok once)
  /\ (forall key,
        id_string (VObj members) = Ok key ->
        Forall coercible items ->
        let once := filter (fun p => negb (id_is key p)) items in
        delete (VArr items) (VObj members) = Ok (VArr once)
        /\ delete (VArr once) (VObj members) = Ok (VArr once)
        /\ ((forall p, In p items -> id_is key p = false) -> once = items)
        /\ (forall (w : World) (req : Request number) (body : value)
                   (supabaseAdmin : Client) (l1 l2 : list Event),
              authorize w req = (Next body, l1) ->
              download_props w = (Next (supabaseAdmin, VArr items), l2) ->
              Get body "action" = Ok (VStr "delete") ->
              Get body "property" = Ok (VObj members) ->
              (forall p, In p items -> id_is key p = false) ->
              storage_upload supabaseAdmin BUCKET FILE
                (JSON_stringify (VArr items) 2)
              = Ok {| ul_error := None |} ->
              uploads (snd (POST w req)) = [JSON_stringify (VArr items) 2]
              /\ fst (POST w req) = ok_response)).
Proof.
  split.
  { destruct (delete (VArr items) (VObj members)) as [once | e] eqn:Hd;
      [| reflexivity].
    cbn [rbind]. exact (delete_twice _ _ _ Hd). }
  split; [intros once; apply delete_twice |].
  intros key Hkey Hall once.
  assert (Hsame : (forall p, In p items -> id_is key p = false) -> once = items).
  { intros Hnone. apply filter_untouched. intros p Hin.
    now rewrite (Hnone p Hin). }
  split; [exact (delete_items items _ key Hkey Hall) |].
  split.
  { rewrite (delete_items once _ key Hkey (coercible_filter _ _ Hall)).
    subst once. now rewrite filter_twice. }
  split; [exact Hsame |].
  intros w req body c l1 l2 Ha Hd Hact Hprop Hnone Hstore.
  assert (Hc : apply_change body (VArr items) = (Next (VArr items), [])).
  { rewrite (apply_change_action body (VArr items) (VObj members) "delete" delete);
      auto.
    rewrite (delete_items items (VObj members) key Hkey Hall).
    fold once. now rewrite (Hsame Hnone). }
  destruct (POST_changed w req body _ _ _ l1 l2 Ha Hd Hc) as [Hup Hok].
  split; [exact Hup | exact (Hok Hstore)].
Qed.

(** ** When the stages go through *)

(** A configured deployment lets the holder of a valid token through when the
    lower-cased e-mail is on the allowlist. *)
Lemma authorize_admin (w : World) (req : Request number) (body : value)
    (token : string) (supabaseForAuth : Client) (r : UserResponse) (user : User) :
  request_json req = Ok body ->
  get_token req = Some token -> token <> "" ->
  truthy_str (SUPABASE_URL w) = true ->
  truthy_str (SUPABASE_ANON w) = true ->
  truthy_str (SUPABASE_SERVICE_ROLE w) = true ->
  createClient w (or_empty (SUPABASE_URL w)) (or_empty (SUPABASE_ANON w))
    = Ok supabaseForAuth ->
  auth_getUser supabaseForAuth token = Ok r ->
  ur_error r = None ->
  optional_user (ur_data r) = Some user ->
  includes (ADMIN_EMAILS w) (toLowerCase (or_empty (user_email user))) = true ->
  authorize w req = (Next body, [EGetUser token]).
Proof.
  intros Hjson Htok Hne Hurl Hanon Hrole Hc Hr Herr Huser Hin.
  unfold authorize. rewrite Hjson, bind_await_ok, Htok.
  apply String.eqb_neq in Hne. cbn [truthy_str]. rewrite Hne.
  rewrite Hurl, Hanon, Hrole. cbn [negb orb or_empty].
  rewrite Hc, bind_await_ok. unfold emit. cbn [bind].
  now rewrite Hr, bind_await_ok, Herr, Huser, Hin.
Qed.

(** A file with text on it is read as what the text parses to. *)
Lemma download_props_file (w : World) (supabaseAdmin : Client)
    (r : DownloadResult) (downloadData : Blob) (props : value) :
  createClient w (or_empty (SUPABASE_URL w)) (or_empty (SUPABASE_SERVICE_ROLE w))
    = Ok supabaseAdmin ->
  storage_download supabaseAdmin BUCKET FILE = Ok r ->
  dl_error r = None ->
  dl_data r = Some downloadData ->
  blob_text downloadData <> "" ->
  JSON_parse (blob_text downloadData) = Ok props ->
  download_props w = (Next (supabaseAdmin, props), [EDownload BUCKET FILE]).
Proof.
  intros Hc Hr Herr Hdata Htxt Hparse. unfold download_props.
  rewrite Hc, bind_await_ok. unfold emit. cbn [bind].
  rewrite Hr, bind_await_ok, Herr, Hdata.
  apply String.eqb_neq in Htxt. rewrite Htxt. cbn [negb].
  now rewrite Hparse.
Qed.

(** ** The token *)

Lemma get_token_missing (req : Request number) :
  (forall h, headers_get req "authorization" = Some h ->
             startsWith h "Bearer " = false) ->
  get_token req = None.
Proof.
  intros Hh. unfold get_token.
  destruct (headers_get req "authorization") as [h |]; cbn [or_empty].
  - now rewrite (Hh h eq_refl).
  - reflexivity.
Qed.

(** C1, as the handler has it.  The body is read before the header is looked
    at.  For every request whose body parses, and whose Authorization header
    is absent or does not start with "Bearer ", the answer is 401
    "Unauthorized - missing token", whatever the parsed body and whatever the
    world; no outside call is made. *)
Theorem missing_token_unauthorized (w : World) (req : Request number)
    (json : value) :
  request_json req = Ok json ->
  (forall h, headers_get req "authorization" = Some h ->
             startsWith h "Bearer " = false) ->
  POST w req = (error_response 401 "Unauthorized - missing token", []).
Proof.
  intros Hjson Hh. apply POST_replied.
  unfold store_change. apply bind_return.
  unfold authorize. rewrite Hjson, bind_await_ok.
  now rewrite (get_token_missing req Hh).
Qed.

(** ** The validation of the change *)

(** C5, as the handler has it.  With a truthy action that is none of "add",
    "edit" and "delete", and a truthy property, the answer is 400 "Unknown
    action" and nothing is uploaded. *)
Theorem unknown_action_rejected (w : World) (req : Request number)
    (body props action property : value) (supabaseAdmin : Client)
    (l1 l2 : list Event) :
  authorize w req = (Next body, l1) ->
  download_props w = (Next (supabaseAdmin, props), l2) ->
  Get body "action" = Ok action ->
  Get body "property" = Ok property ->
  truthy action = true ->
  truthy property = true ->
  action <> VStr "add" -> action <> VStr "edit" -> action <> VStr "delete" ->
  fst (POST w req) = error_response 400 "Unknown action"
  /\ uploads (snd (POST w req)) = [].
Proof.
  intros Ha Hd Hact Hprop Hta Htp Hadd Hedit Hdel.
  apply (POST_refused w req body props supabaseAdmin l1 l2); auto.
  unfold apply_change.
  rewrite (destructure_members _ _ _ Hact Hprop), bind_await_ok.
  cbn beta iota. rewrite Hta, Htp. cbn [negb orb].
  now rewrite !strict_eq_str_diff.
Qed.

(** C10.  The check on [action] and [property] is a truthiness test: a
    request whose action or property is falsy answers 400 "Bad request" and
    uploads nothing.  The falsy values are the missing member, [null],
    [false], a zero and the empty string, so a member that is present with
    one of the last four is treated as the missing one is. *)
Theorem falsy_fields_bad_request (w : World) (req : Request number)
    (body props action property : value) (supabaseAdmin : Client)
    (l1 l2 : list Event) :
  authorize w req = (Next body, l1) ->
  download_props w = (Next (supabaseAdmin, props), l2) ->
  Get body "action" = Ok action ->
  Get body "property" = Ok property ->
  truthy action = false \/ truthy property = false ->
  (fst (POST w req) = error_response 400 "Bad request"
   /\ uploads (snd (POST w req)) = [])
  /\ (forall v : value,
        truthy v = false <->
        v = VUndefined \/ v = VNull \/ v = VBool false
        \/ (exists n, v = VNum n /\ Number_toBoolean n = false)
        \/ v = VStr "").
Proof.
  intros Ha Hd Hact Hprop Hfalsy. split.
  - apply (POST_refused w req body props supabaseAdmin l1 l2); auto.
    unfold apply_change.
    rewrite (destructure_members _ _ _ Hact Hprop), bind_await_ok.
    cbn beta iota.
    destruct Hfalsy as [-> | ->]; [reflexivity |].
    now rewrite orb_true_r.
  - intros v. split.
    + destruct v as [| | [|] | n | s | |]; cbn; try discriminate; auto.
      * intros Hn. right. right. right. left. now exists n.
      * intros Hs. apply negb_false_iff, String.eqb_eq in Hs. subst. auto 6.
    + intros [-> | [-> | [-> | [[n [-> Hn]] | ->]]]]; auto.
Qed.

(** ** The read of the collection *)

(** C7.  With the admin client made and the download settled: a result
    whose error has status 404 and no data, and a file whose text is empty,
    both give the empty collection, and the handler goes on to the change
    with it; an error with any other status, or none, ends the handler with
    500 "Failed to read properties.json: " and the error's message, before
    any change or upload. *)
Theorem read_collection_normalized (w : World) (supabaseAdmin : Client)
    (r : DownloadResult) :
  createClient w (or_empty (SUPABASE_URL w)) (or_empty (SUPABASE_SERVICE_ROLE w))
    = Ok supabaseAdmin ->
  storage_download supabaseAdmin BUCKET FILE = Ok r ->
  (forall e, dl_error r = Some e -> se_status e = Some 404%Z ->
             dl_data r = None ->
             download_props w
             = (Next (supabaseAdmin, VArr []), [EDownload BUCKET FILE]))
  /\ ((forall e, dl_error r = Some e -> se_status e = Some 404%Z) ->
      dl_data r = Some {| blob_text := "" |} ->
      download_props w
      = (Next (supabaseAdmin, VArr []), [EDownload BUCKET FILE]))
  /\ (forall (req : Request number) (body : value) (l1 : list Event),
        authorize w req = (Next body, l1) ->
        download_props w
        = (Next (supabaseAdmin, VArr []), [EDownload BUCKET FILE]) ->
        store_change w req
        = (fst (props' <- apply_change body (VArr []) ;;
                upload_back supabaseAdmin props'),
           (l1 ++ [EDownload BUCKET FILE]
               ++ snd (props' <- apply_change body (VArr []) ;;
                       upload_back supabaseAdmin props'))%list))
  /\ (forall e, dl_error r = Some e -> se_status e <> Some 404%Z ->
        forall (req : Request number) (body : value) (l1 : list Event),
          authorize w req = (Next body, l1) ->
          POST w req
          = (error_response 500
               ("Failed to read properties.json: " ++ se_message e),
             (l1 ++ [EDownload BUCKET FILE])%list)
          /\ uploads (snd (POST w req)) = []).
Proof.
  intros Hc Hr.
  assert (Hrun : download_props w
                 = (emit (EDownload BUCKET FILE) ;;
                    match dl_error r with
                    | Some downloadError =>
                        if status_is_not downloadError 404
                        then reply (error_response 500
                                      ("Failed to read properties.json: "
                                         ++ se_message downloadError))
                        else ret tt
                    | None => ret tt
                    end ;;
                    props <- match dl_data r with
                             | Some downloadData =>
                                 if negb (blob_text downloadData =? "")
                                 then await (JSON_parse (blob_text downloadData))
                                 else ret (VArr [])
                             | None => ret (VArr [])
                             end ;;
                    ret (supabaseAdmin, props))).
  { unfold download_props. rewrite Hc, bind_await_ok. unfold emit.
    cbn [bind]. now rewrite Hr, bind_await_ok. }
  assert (Hother : forall e, dl_error r = Some e -> se_status e <> Some 404%Z ->
             download_props w
             = (Return (error_response 500
                          ("Failed to read properties.json: " ++ se_message e)),
                [EDownload BUCKET FILE])).
  { intros e He Hst. rewrite Hrun, He. unfold status_is_not.
    destruct (se_status e) as [st |]; [| reflexivity].
    destruct (Z.eqb_spec st 404); [subst; contradiction | reflexivity]. }
  split; [| split; [| split]].
  - intros e He Hst Hdata. rewrite Hrun, He, Hdata.
    unfold status_is_not. now rewrite Hst.
  - intros Herr Hdata. rewrite Hrun, Hdata. unfold status_is_not.
    destruct (dl_error r) as [e |]; [rewrite (Herr e eq_refl) |]; reflexivity.
  - intros req body l1 Ha Hd.
    exact (store_change_from w req body (VArr []) supabaseAdmin l1 _ Ha Hd).
  - intros e He Hst req body l1 Ha.
    assert (Hpost : POST w req
                    = (error_response 500
                         ("Failed to read properties.json: " ++ se_message e),
                       (l1 ++ [EDownload BUCKET FILE])%list)).
    { apply POST_replied. unfold store_change.
      rewrite (bind_next _ _ body l1 Ha). cbn [fst snd].
      now rewrite (bind_return _ _ _ _ (Hother e He Hst)). }
    split; [exact Hpost |].
    rewrite Hpost. cbn [snd]. rewrite uploads_app.
    pose proof (authorize_no_upload w req) as Hquiet. rewrite Ha in Hquiet.
    cbn [snd] in Hquiet. now rewrite Hquiet.
Qed.

(** ** The deploy hook *)

(** C8.  Once the change is uploaded, the answer is the [ok] response
    whatever the hook does: with a hook configured, the POST is made and, if
    it throws, the failure is logged and nothing else changes; with none
    configured, no call is made. *)
Theorem hook_failure_ignored (w : World) (req : Request number)
    (log : list Event) :
  store_change w req = (Next tt, log) ->
  fst (POST w req) = ok_response
  /\ (forall e, VERCEL_HOOK w <> "" ->
                fetch w (VERCEL_HOOK w) = Err e ->
                snd (POST w req)
                = (log ++ [EFetch (VERCEL_HOOK w);
                           EWarn "Vercel hook failed" e])%list)
  /\ (VERCEL_HOOK w <> "" ->
      fetch w (VERCEL_HOOK w) = Ok tt ->
      snd (POST w req) = (log ++ [EFetch (VERCEL_HOOK w)])%list)
  /\ (VERCEL_HOOK w = "" -> snd (POST w req) = log).
Proof.
  intros Hs. rewrite (POST_stored w req log Hs). cbn [fst snd].
  split; [reflexivity |]. unfold trigger_hook.
  split; [| split].
  - intros e Hhook Hf. apply String.eqb_neq in Hhook.
    now rewrite Hhook, Hf.
  - intros Hhook Hf. apply String.eqb_neq in Hhook.
    now rewrite Hhook, Hf.
  - intros Hhook. rewrite Hhook. cbn. apply app_nil_r.
Qed.

(** ** The allowlist *)

(** C9.  With [ADMIN_EMAILS] unset or empty the allowlist is the list whose
    one entry is the empty string.  A user who holds a valid token and has no
    e-mail then passes the admin check, so the handler goes on with the
    request; an [add] request of such a user is written to the store. *)
Theorem empty_allowlist_admits (w : World) (req : Request number)
    (body : value) (token : string) (supabaseForAuth : Client)
    (r : UserResponse) (user : User) :
  env w "ADMIN_EMAILS" = None \/ env w "ADMIN_EMAILS" = Some "" ->
  ADMIN_EMAILS w = [""]
  /\ (request_json req = Ok body ->
      get_token req = Some token -> token <> "" ->
      truthy_str (SUPABASE_URL w) = true ->
      truthy_str (SUPABASE_ANON w) = true ->
      truthy_str (SUPABASE_SERVICE_ROLE w) = true ->
      createClient w (or_empty (SUPABASE_URL w)) (or_empty (SUPABASE_ANON w))
        = Ok supabaseForAuth ->
      auth_getUser supabaseForAuth token = Ok r ->
      ur_error r = None ->
      optional_user (ur_data r) = Some user ->
      user_email user = None ->
      authorize w req = (Next body, [EGetUser token])
      /\ (forall (supabaseAdmin : Client) (items : list value)
                 (members : list (string * value)) (l2 : list Event),
            download_props w = (Next (supabaseAdmin, VArr items), l2) ->
            Get body "action" = Ok (VStr "add") ->
            Get body "property" = Ok (VObj members) ->
            uploads (snd (POST w req))
            = [JSON_stringify (VArr (items ++ [VObj members])%list) 2])).
Proof.
  intros Henv.
  assert (Hlist : ADMIN_EMAILS w = [""]).
  { unfold ADMIN_EMAILS. destruct Henv as [-> | ->]; reflexivity. }
  split; [exact Hlist |].
  intros Hjson Htok Hne Hurl Hanon Hrole Hc Hr Herr Huser Hmail.
  assert (Ha : authorize w req = (Next body, [EGetUser token])).
  { apply (authorize_admin w req body token supabaseForAuth r user); auto.
    now rewrite Hlist, Hmail. }
  split; [exact Ha |].
  intros c items members l2 Hd Hact Hprop.
  assert (Hch : apply_change body (VArr items)
                = (Next (VArr (items ++ [VObj members])%list), [])).
  { rewrite (apply_change_action body (VArr items) (VObj members) "add" add);
      auto. }
  exact (proj1 (POST_changed w req body _ _ _ _ l2 Ha Hd Hch)).
Qed.

End Facts.

(** * More of the handler

    What the handler does on the paths the statements above leave aside: the
    other early answers, the failures of the store, the order of the outside
    calls, and how the three changes combine. *)

(** ** Splitting, trimming and lower-casing *)

Lemma split_not_empty (sep : ascii) (s : string) : split sep s <> [].
Proof.
  destruct s as [| c rest]; cbn; [discriminate |].
  destruct (Ascii.eqb c sep); [discriminate |].
  destruct (split sep rest); discriminate.
Qed.

Lemma split_other (sep c : ascii) (s : string) :
  Ascii.eqb c sep = false ->
  split sep (String c s)
  = String c (hd "" (split sep s)) :: tl (split sep s).
Proof.
  intros Hc. cbn. rewrite Hc.
  pose proof (split_not_empty sep s) as Hne.
  destruct (split sep s); [contradiction | reflexivity].
Qed.

Lemma split_first_word (s : string) : hd "" (split " " s) = first_word s.
Proof.
  induction s as [| c rest IH]; [reflexivity |].
  cbn [first_word]. destruct (Ascii.eqb c " ") eqn:Hc.
  - cbn. now rewrite Hc.
  - rewrite (split_other _ _ _ Hc). cbn. now rewrite IH.
Qed.

Lemma first_word_no_space (s : string) :
  ~ In " "%char (list_ascii_of_string (first_word s)).
Proof.
  induction s as [| c rest IH]; cbn; [tauto |].
  destruct (Ascii.eqb_spec c " "); cbn; [tauto |].
  intros [Heq | Hin]; [congruence | contradiction].
Qed.

Lemma prefix_split (p s : string) :
  String.prefix p s = true -> exists rest, s = p ++ rest.
Proof.
  revert s. induction p as [| c p IH]; intros s Hp.
  - now exists s.
  - destruct s as [| d s]; [discriminate |]. cbn in Hp.
    destruct (Ascii.ascii_dec c d) as [-> | Hne]; [| discriminate].
    destruct (IH s Hp) as [rest ->]. now exists rest.
Qed.

Lemma prefix_app (p rest : string) : String.prefix p (p ++ rest) = true.
Proof.
  induction p as [| c p IH]; cbn; [now destruct rest |].
  destruct (Ascii.ascii_dec c c); [exact IH | contradiction].
Qed.

Lemma split_bearer (rest : string) :
  nth_error (split " " ("Bearer " ++ rest)) 1 = Some (first_word rest).
Proof.
  rewrite <- split_first_word. cbn.
  pose proof (split_not_empty " " rest) as Hne.
  destruct (split " " rest); [contradiction | reflexivity].
Qed.

(** Joining the pieces with the separator gives the text back. *)
Lemma concat_split (sep : ascii) (s : string) :
  String.concat (String sep "") (split sep s) = s.
Proof.
  induction s as [| c rest IH]; [reflexivity |].
  cbn [split]. pose proof (split_not_empty sep rest) as Hne.
  destruct (Ascii.eqb_spec c sep) as [-> | Hc].
  - destruct (split sep rest) as [| piece pieces] eqn:Hs; [contradiction |].
    cbn [String.concat]. cbn in IH |- *. now rewrite IH.
  - destruct (split sep rest) as [| piece pieces] eqn:Hs; [contradiction |].
    destruct pieces; cbn in IH |- *; now rewrite <- IH.
Qed.

Lemma split_snoc (sep : ascii) (s : string) :
  split sep (s ++ String sep "") = (split sep s ++ [""])%list.
Proof.
  induction s as [| c rest IH]; cbn.
  - now rewrite Ascii.eqb_refl.
  - rewrite IH. destruct (Ascii.eqb c sep); [reflexivity |].
    pose proof (split_not_empty sep rest) as Hne.
    destruct (split sep rest); [contradiction | reflexivity].
Qed.

Lemma lower_lower (c : ascii) : lower (lower c) = lower c.
Proof. destruct c as [[] [] [] [] [] [] [] []]; reflexivity. Qed.

Lemma is_space_lower (c : ascii) : is_space (lower c) = is_space c.
Proof. destruct c as [[] [] [] [] [] [] [] []]; reflexivity. Qed.

Lemma toLowerCase_twice (s : string) : toLowerCase (toLowerCase s) = toLowerCase s.
Proof.
  induction s as [| c rest IH]; cbn; [reflexivity |].
  now rewrite lower_lower, IH.
Qed.

Lemma trimStart_lower (s : string) :
  trimStart (toLowerCase s) = toLowerCase (trimStart s).
Proof.
  induction s as [| c rest IH]; cbn; [reflexivity |].
  rewrite is_space_lower. now destruct (is_space c).
Qed.

Lemma trimEnd_lower (s : string) :
  trimEnd (toLowerCase s) = toLowerCase (trimEnd s).
Proof.
  induction s as [| c rest IH]; cbn; [reflexivity |].
  rewrite IH, is_space_lower.
  destruct (trimEnd rest); cbn; [now destruct (is_space c) | reflexivity].
Qed.

Lemma trim_toLowerCase (s : string) : trim (toLowerCase s) = toLowerCase (trim s).
Proof. unfold trim. now rewrite trimStart_lower, trimEnd_lower. Qed.

Lemma trimEnd_cons (c : ascii) (s : string) :
  trimEnd (String c s)
  = match trimEnd s with
    | EmptyString => if is_space c then "" else String c ""
    | kept => String c kept
    end.
Proof. reflexivity. Qed.

Lemma trimEnd_twice (s : string) : trimEnd (trimEnd s) = trimEnd s.
Proof.
  induction s as [| c rest IH]; [reflexivity |].
  rewrite trimEnd_cons.
  destruct (trimEnd rest) as [| d kept] eqn:Hrest.
  - destruct (is_space c) eqn:Hc; cbn; [reflexivity | now rewrite Hc].
  - now rewrite trimEnd_cons, IH.
Qed.

(** A text that does not begin with white space. *)
Lemma trimStart_clean (s : string) :
  trimStart (trimEnd (trimStart s)) = trimEnd (trimStart s).
Proof.
  induction s as [| c rest IH]; [reflexivity |].
  cbn [trimStart]. destruct (is_space c) eqn:Hc; [exact IH |].
  cbn [trimEnd]. destruct (trimEnd rest); [rewrite Hc |]; cbn; now rewrite Hc.
Qed.

Lemma trim_twice (s : string) : trim (trim s) = trim s.
Proof. unfold trim. now rewrite trimStart_clean, trimEnd_twice. Qed.

(** Splits on the innermost thing a hypothesis still branches on. *)
Ltac split_in H :=
  match type of H with
  | context [match ?x with _ => _ end] =>
      lazymatch x with
      | context [match _ with _ => _ end] => fail
      | _ => destruct x eqn:?
      end
  end.

Ltac unfold_steps H := unfold bind, await, reply, ret, emit in H.

Ltac cases_of H :=
  unfold_steps H; repeat (split_in H);
  inversion H; subst; clear H.

(** Closes the case of a step that ended the run before any upload; what is
    left is the status of an early answer. *)
Ltac early_answer :=
  split;
  [ reflexivity
  | split;
    [ intros ? Hr; inversion Hr; subst
    | split; [reflexivity | left; split; [reflexivity | discriminate]] ] ].

Section Beyond.

Context {number : Type} `{Runtime number}.

#[local] Abbreviation value := (value number).

(** ** What each step logs and answers *)

Lemma authorize_log (w : World) (req : Request number) (o : outcome value)
    (l : list Event) :
  authorize w req = (o, l) ->
  (l = [] /\ forall b, o <> Next b)
  \/ l = [EGetUser (or_empty (get_token req))].
Proof.
  intros Ha. unfold authorize in Ha. cases_of Ha; auto;
    left; split; auto; discriminate.
Qed.

Lemma authorize_answer (w : World) (req : Request number) (r : Response)
    (l : list Event) :
  authorize w req = (Return r, l) ->
  In (status r) [401; 403; 500]%Z.
Proof.
  intros Ha. unfold authorize in Ha. cases_of Ha; cbn; auto.
Qed.

Lemma download_props_log (w : World) (o : outcome (Client * value))
    (l : list Event) :
  download_props w = (o, l) ->
  (l = [] /\ forall a, o <> Next a) \/ l = [EDownload BUCKET FILE].
Proof.
  intros Hd. unfold download_props in Hd. cases_of Hd; auto;
    left; split; auto; discriminate.
Qed.

Lemma download_props_answer (w : World) (r : Response) (l : list Event) :
  download_props w = (Return r, l) -> status r = 500%Z.
Proof.
  intros Hd. unfold download_props in Hd. cases_of Hd; reflexivity.
Qed.

Lemma download_props_client (w : World) (c : Client) (props : value)
    (l : list Event) :
  download_props w = (Next (c, props), l) ->
  createClient w (or_empty (SUPABASE_URL w)) (or_empty (SUPABASE_SERVICE_ROLE w))
  = Ok c.
Proof.
  intros Hd. unfold download_props in Hd. cases_of Hd; reflexivity.
Qed.

Lemma apply_change_answer (body props : value) (r : Response) (l : list Event) :
  apply_change body props = (Return r, l) -> status r = 400%Z.
Proof.
  intros Hc. unfold apply_change in Hc. cases_of Hc; reflexivity.
Qed.

Lemma upload_back_log (c : Client) (props : value) :
  snd (upload_back c props) = [EUpload BUCKET FILE (JSON_stringify props 2)].
Proof.
  unfold upload_back, bind, emit, await, reply, ret.
  destruct (storage_upload c BUCKET FILE (JSON_stringify props 2)) as [[[e |]] | e];
    reflexivity.
Qed.

Lemma upload_back_answer (c : Client) (props : value) (r : Response)
    (l : list Event) :
  upload_back c props = (Return r, l) -> status r = 500%Z.
Proof.
  intros Hu. unfold upload_back in Hu. cases_of Hu; reflexivity.
Qed.

Lemma upload_back_accepted (c : Client) (props : value) (l : list Event) :
  upload_back c props = (Next tt, l) ->
  storage_upload c BUCKET FILE (JSON_stringify props 2) = Ok {| ul_error := None |}.
Proof.
  intros Hu. unfold upload_back in Hu. cases_of Hu.
  match goal with r : UploadResult |- _ => destruct r end. cbn in *. congruence.
Qed.

Lemma trigger_hook_log (w : World) :
  snd (trigger_hook w) = []
  \/ snd (trigger_hook w) = [EFetch (VERCEL_HOOK w)]
  \/ exists e, snd (trigger_hook w)
               = [EFetch (VERCEL_HOOK w); EWarn "Vercel hook failed" e].
Proof.
  unfold trigger_hook. destruct (negb (VERCEL_HOOK w =? "")); [| now left].
  unfold bind, emit, ret. destruct (fetch w (VERCEL_HOOK w)) as [[] | e].
  - right. now left.
  - right. right. now exists e.
Qed.

(** A run of [store_change]: the calls are made in the order of the steps,
    each at most once and none skipped; an early answer is an error answer;
    the hook is not reached; and either nothing is uploaded, or the third
    call is the one upload, accepted by the store when the step completes. *)
Lemma store_change_run (w : World) (req : Request number) (o : outcome unit)
    (log : list Event) :
  store_change w req = (o, log) ->
  map call_rank log = seq 0 (List.length log)
  /\ (forall r, o = Return r -> In (status r) [400; 401; 403; 500]%Z)
  /\ fetches log = []
  /\ ((uploads log = [] /\ o <> Next tt)
      \/ exists (c : Client) (props' : value),
           uploads log = [JSON_stringify props' 2]
           /\ List.length log = 3
           /\ createClient w (or_empty (SUPABASE_URL w))
                (or_empty (SUPABASE_SERVICE_ROLE w)) = Ok c
           /\ (o = Next tt ->
               storage_upload c BUCKET FILE (JSON_stringify props' 2)
               = Ok {| ul_error := None |})).
Proof.
  intros Hs. unfold store_change in Hs.
  destruct (authorize w req) as [[body | r | e] l1] eqn:Ha.
  2: { cbn in Hs. inversion Hs; subst; clear Hs.
       pose proof (authorize_answer _ _ _ _ Ha) as Hst.
       destruct (authorize_log _ _ _ _ Ha) as [[-> _] | ->]; early_answer;
         cbn in Hst |- *; tauto. }
  2: { cbn in Hs. inversion Hs; subst; clear Hs.
       destruct (authorize_log _ _ _ _ Ha) as [[-> _] | ->]; early_answer. }
  destruct (authorize_log _ _ _ _ Ha) as [[_ Hno] | ->];
    [now contradiction (Hno body) |].
  cbn [bind] in Hs.
  destruct (download_props w) as [[[c props] | r | e] l2] eqn:Hd.
  2: { cbn in Hs. inversion Hs; subst; clear Hs.
       pose proof (download_props_answer _ _ _ Hd) as Hst.
       destruct (download_props_log _ _ _ Hd) as [[-> _] | ->]; early_answer;
         cbn; rewrite Hst; tauto. }
  2: { cbn in Hs. inversion Hs; subst; clear Hs.
       destruct (download_props_log _ _ _ Hd) as [[-> _] | ->]; early_answer. }
  destruct (download_props_log _ _ _ Hd) as [[_ Hno] | ->];
    [now contradiction (Hno (c, props)) |].
  pose proof (download_props_client _ _ _ _ Hd) as Hclient.
  cbn [bind] in Hs.
  pose proof (apply_change_silent body props) as Hquiet.
  destruct (apply_change body props) as [[props' | r | e] l3] eqn:Hc;
    cbn [snd] in Hquiet; subst l3.
  2: { cbn in Hs. inversion Hs; subst; clear Hs.
       pose proof (apply_change_answer _ _ _ _ Hc) as Hst.
       early_answer. cbn; rewrite Hst; tauto. }
  2: { cbn in Hs. inversion Hs; subst; clear Hs. early_answer. }
  cbn [bind] in Hs.
  pose proof (upload_back_log c props') as Hlog.
  destruct (upload_back c props') as [ou l4] eqn:Hu. cbn [snd] in Hlog. subst l4.
  cbn in Hs. inversion Hs; subst; clear Hs.
  split; [reflexivity |]. split; [| split; [reflexivity |]].
  - intros r' ->. rewrite (upload_back_answer _ _ _ _ Hu). cbn. tauto.
  - right. exists c, props'.
    split; [reflexivity |]. split; [reflexivity |]. split; [exact Hclient |].
    intros ->. exact (upload_back_accepted _ _ _ Hu).
Qed.

(** ** The answers and the calls of every run *)

(** X1.  Whatever the request and the world, the status of the answer is
    200, 400, 401, 403 or 500. *)
Theorem status_is_one_of_five (w : World) (req : Request number) :
  In (status (fst (POST w req))) [200; 400; 401; 403; 500]%Z.
Proof.
  destruct (store_change w req) as [[[] | r | e] log] eqn:Hs.
  - rewrite (POST_stored _ _ _ Hs). cbn. tauto.
  - rewrite (POST_replied _ _ _ _ Hs). cbn [fst].
    destruct (store_change_run _ _ _ _ Hs) as (_ & Hst & _).
    specialize (Hst r eq_refl). cbn in Hst |- *. tauto.
  - rewrite (POST_thrown _ _ _ _ Hs). cbn. tauto.
Qed.

(** X2.  In every run the outside calls are made in the order of the steps
    (token check, download, upload, hook, warning), each at most once and
    none before the ones ahead of it: the k-th call of the log is the k-th
    step.  So there are at most five calls, at most one upload and at most
    one post to the hook. *)
Theorem calls_in_step_order (w : World) (req : Request number) :
  map call_rank (snd (POST w req)) = seq 0 (List.length (snd (POST w req)))
  /\ List.length (snd (POST w req)) <= 5
  /\ List.length (uploads (snd (POST w req))) <= 1
  /\ List.length (fetches (snd (POST w req))) <= 1.
Proof.
  assert (Hbound : forall log : list Event,
             map call_rank log = seq 0 (List.length log) ->
             List.length log <= 5
             /\ List.length (uploads log) <= 1
             /\ List.length (fetches log) <= 1).
  { intros log Hr.
    repeat match goal with
           | Hr : map call_rank ?l = _ |- _ =>
               is_var l; destruct l as [| [] l]; cbn in Hr;
               try discriminate Hr; try (injection Hr as Hr)
           end;
      unfold uploads, fetches; cbn; lia. }
  assert (Hrank : map call_rank (snd (POST w req))
                  = seq 0 (List.length (snd (POST w req)))).
  { destruct (store_change w req) as [[[] | r | e] log] eqn:Hs.
    - rewrite (POST_stored _ _ _ Hs). cbn [snd].
      destruct (store_change_run _ _ _ _ Hs) as (Hr & _ & _ & [[_ Hno] | Hup]);
        [now contradiction Hno |].
      destruct Hup as (c & props' & _ & Hlen & _).
      rewrite map_app, length_app, Hr, Hlen.
      destruct (trigger_hook_log w) as [-> | [-> | [e ->]]]; reflexivity.
    - rewrite (POST_replied _ _ _ _ Hs).
      exact (proj1 (store_change_run _ _ _ _ Hs)).
    - rewrite (POST_thrown _ _ _ _ Hs).
      exact (proj1 (store_change_run _ _ _ _ Hs)). }
  split; [exact Hrank | exact (Hbound _ Hrank)].
Qed.

(** X3.  An answer with status 200 means that the collection was uploaded,
    once, and that the store accepted the upload; and the hook is posted to
    only in a run that is answered with the [ok] response. *)
Theorem ok_only_after_accepted_upload (w : World) (req : Request number) :
  (status (fst (POST w req)) = 200%Z ->
   fst (POST w req) = ok_response
   /\ exists (supabaseAdmin : Client) (content : string),
        uploads (snd (POST w req)) = [content]
        /\ createClient w (or_empty (SUPABASE_URL w))
             (or_empty (SUPABASE_SERVICE_ROLE w)) = Ok supabaseAdmin
        /\ storage_upload supabaseAdmin BUCKET FILE content
           = Ok {| ul_error := None |})
  /\ (fetches (snd (POST w req)) <> [] ->
      fst (POST w req) = ok_response
      /\ fetches (snd (POST w req)) = [VERCEL_HOOK w]).
Proof.
  destruct (store_change w req) as [[[] | r | e] log] eqn:Hs.
  - rewrite (POST_stored _ _ _ Hs). cbn [fst snd].
    destruct (store_change_run _ _ _ _ Hs) as (_ & _ & Hf & [[_ Hno] | Hup]);
      [now contradiction Hno |].
    destruct Hup as (c & props' & Hup & _ & Hc & Hok).
    assert (Hups : uploads (log ++ snd (trigger_hook w)) = [JSON_stringify props' 2]).
    { rewrite uploads_app, Hup, trigger_hook_no_upload. reflexivity. }
    split.
    + intros _. split; [reflexivity |].
      exists c, (JSON_stringify props' 2). auto.
    + intros Hfetch. split; [reflexivity |].
      unfold fetches in *. rewrite flat_map_app in *. rewrite Hf in *.
      cbn [app] in *.
      destruct (trigger_hook_log w) as [Hl | [Hl | [e Hl]]];
        rewrite Hl in *; cbn in *; congruence.
  - rewrite (POST_replied _ _ _ _ Hs). cbn [fst snd].
    destruct (store_change_run _ _ _ _ Hs) as (_ & Hst & Hf & _).
    specialize (Hst r eq_refl).
    split; [| now intros Hfetch].
    intros H200. rewrite H200 in Hst. cbn in Hst.
    repeat (destruct Hst as [Hst | Hst]; [discriminate |]). contradiction.
  - rewrite (POST_thrown _ _ _ _ Hs). cbn [fst snd].
    destruct (store_change_run _ _ _ _ Hs) as (_ & _ & Hf & _).
    split; [discriminate | now intros Hfetch].
Qed.

(** ** The token and the early answers *)

(** X4.  The token is the second word of the header: what follows "Bearer " up to
    the next space.  It never holds a space, and there is one exactly when
    the header starts with "Bearer ". *)
Theorem token_is_second_word (req : Request number) (token : string) :
  (get_token req = Some token <->
   exists rest, headers_get req "authorization" = Some ("Bearer " ++ rest)
                /\ token = first_word rest)
  /\ (get_token req = Some token ->
      ~ In " "%char (list_ascii_of_string token)).
Proof.
  assert (Hiff : get_token req = Some token <->
                 exists rest,
                   headers_get req "authorization" = Some ("Bearer " ++ rest)
                   /\ token = first_word rest).
  { unfold get_token, startsWith. split.
    - destruct (headers_get req "authorization") as [h |]; cbn [or_empty].
      + destruct (String.prefix "Bearer " h) eqn:Hp; [| discriminate].
        destruct (prefix_split _ _ Hp) as [rest ->].
        rewrite split_bearer. intros Ht. injection Ht as <-. now exists rest.
      + discriminate.
    - intros (rest & -> & ->). cbn [or_empty].
      now rewrite prefix_app, split_bearer. }
  split; [exact Hiff |].
  intros Ht. apply Hiff in Ht. destruct Ht as (rest & _ & ->).
  apply first_word_no_space.
Qed.

(** X5.  A header "Bearer " that goes on with a space, or with nothing, carries
    the empty token, and a request with the empty token is answered as one
    without header: 401 "Unauthorized - missing token", no outside call. *)
Theorem empty_token_unauthorized (w : World) (req : Request number)
    (json : value) (rest : string) :
  request_json req = Ok json ->
  headers_get req "authorization" = Some ("Bearer " ++ rest) ->
  first_word rest = "" ->
  get_token req = Some ""
  /\ POST w req = (error_response 401 "Unauthorized - missing token", []).
Proof.
  intros Hjson Hh Hw.
  assert (Ht : get_token req = Some "").
  { unfold get_token, startsWith. rewrite Hh. cbn [or_empty].
    now rewrite prefix_app, split_bearer, Hw. }
  split; [exact Ht |].
  apply POST_replied. unfold store_change. apply bind_return.
  unfold authorize. now rewrite Hjson, bind_await_ok, Ht.
Qed.

(** X6.  With a token, a deployment that lacks the url, the public key or the
    service key (unset or empty) answers 500 "Server misconfiguration"
    without any outside call. *)
Theorem misconfigured_server (w : World) (req : Request number) (json : value) :
  request_json req = Ok json ->
  truthy_str (get_token req) = true ->
  truthy_str (SUPABASE_URL w) = false
  \/ truthy_str (SUPABASE_ANON w) = false
  \/ truthy_str (SUPABASE_SERVICE_ROLE w) = false ->
  POST w req = (error_response 500 "Server misconfiguration", []).
Proof.
  intros Hjson Ht Hmiss.
  apply POST_replied. unfold store_change. apply bind_return.
  unfold authorize. rewrite Hjson, bind_await_ok, Ht. cbn [negb].
  destruct Hmiss as [-> | [-> | ->]]; cbn [negb orb];
    rewrite ?orb_true_r; reflexivity.
Qed.

(** The handler as far as the answer of the auth provider. *)
Lemma authorize_verified (w : World) (req : Request number) (json : value)
    (token : string) (supabaseForAuth : Client) (r : UserResponse) :
  request_json req = Ok json ->
  get_token req = Some token -> token <> "" ->
  truthy_str (SUPABASE_URL w) = true ->
  truthy_str (SUPABASE_ANON w) = true ->
  truthy_str (SUPABASE_SERVICE_ROLE w) = true ->
  createClient w (or_empty (SUPABASE_URL w)) (or_empty (SUPABASE_ANON w))
    = Ok supabaseForAuth ->
  auth_getUser supabaseForAuth token = Ok r ->
  authorize w req
  = (fst (match ur_error r, optional_user (ur_data r) with
          | None, Some user =>
              if negb (includes (ADMIN_EMAILS w)
                         (toLowerCase (or_empty (user_email user))))
              then reply (error_response 403 "Forbidden - not an admin")
              else ret json
          | _, _ => reply (error_response 401 "Invalid token")
          end),
     [EGetUser token]).
Proof.
  intros Hjson Htok Hne Hurl Hanon Hrole Hc Hr.
  unfold authorize. rewrite Hjson, bind_await_ok, Htok.
  apply String.eqb_neq in Hne. cbn [truthy_str]. rewrite Hne.
  rewrite Hurl, Hanon, Hrole. cbn [negb orb or_empty].
  rewrite Hc, bind_await_ok. unfold emit. cbn [bind].
  rewrite Hr, bind_await_ok.
  destruct (ur_error r), (optional_user (ur_data r)); try reflexivity.
  now destruct (negb _).
Qed.

(** X7.  A token that the auth provider answers with an error, or without a
    user, gets 401 "Invalid token"; the provider is the only outside call:
    nothing is downloaded or uploaded. *)
Theorem invalid_token_rejected (w : World) (req : Request number) (json : value)
    (token : string) (supabaseForAuth : Client) (r : UserResponse) :
  request_json req = Ok json ->
  get_token req = Some token -> token <> "" ->
  truthy_str (SUPABASE_URL w) = true ->
  truthy_str (SUPABASE_ANON w) = true ->
  truthy_str (SUPABASE_SERVICE_ROLE w) = true ->
  createClient w (or_empty (SUPABASE_URL w)) (or_empty (SUPABASE_ANON w))
    = Ok supabaseForAuth ->
  auth_getUser supabaseForAuth token = Ok r ->
  ur_error r <> None \/ optional_user (ur_data r) = None ->
  POST w req = (error_response 401 "Invalid token", [EGetUser token]).
Proof.
  intros Hjson Htok Hne Hurl Hanon Hrole Hc Hr Hbad.
  apply POST_replied. unfold store_change. apply bind_return.
  rewrite (authorize_verified w req json token supabaseForAuth r); auto.
  destruct (ur_error r), (optional_user (ur_data r)); try reflexivity.
  destruct Hbad; congruence.
Qed.

(** X8.  With an allowlist and an e-mail in the ASCII range, a verified
    user whose lower-cased e-mail is not an entry of the allowlist gets 403
    "Forbidden - not an admin"; nothing is downloaded or uploaded. *)
Theorem non_admin_forbidden (w : World) (req : Request number) (json : value)
    (token : string) (supabaseForAuth : Client) (r : UserResponse) (user : User) :
  is_ascii (or_empty (env w "ADMIN_EMAILS")) = true ->
  is_ascii (or_empty (user_email user)) = true ->
  request_json req = Ok json ->
  get_token req = Some token -> token <> "" ->
  truthy_str (SUPABASE_URL w) = true ->
  truthy_str (SUPABASE_ANON w) = true ->
  truthy_str (SUPABASE_SERVICE_ROLE w) = true ->
  createClient w (or_empty (SUPABASE_URL w)) (or_empty (SUPABASE_ANON w))
    = Ok supabaseForAuth ->
  auth_getUser supabaseForAuth token = Ok r ->
  ur_error r = None ->
  optional_user (ur_data r) = Some user ->
  includes (ADMIN_EMAILS w) (toLowerCase (or_empty (user_email user))) = false ->
  POST w req = (error_response 403 "Forbidden - not an admin", [EGetUser token]).
Proof.
  intros _ _ Hjson Htok Hne Hurl Hanon Hrole Hc Hr Herr Huser Hout.
  apply POST_replied. unfold store_change. apply bind_return.
  rewrite (authorize_verified w req json token supabaseForAuth r); auto.
  now rewrite Herr, Huser, Hout.
Qed.

(** ** The allowlist *)

Lemma includes_In (l : list string) (s : string) :
  includes l s = true <-> In s l.
Proof.
  unfold includes. rewrite existsb_exists. split.
  - intros (x & Hin & Heq). apply String.eqb_eq in Heq. now subst.
  - intros Hin. exists s. split; [exact Hin | apply String.eqb_refl].
Qed.

Lemma is_ascii_cons (c : ascii) (s : string) :
  is_ascii (String c s) = (nat_of_ascii c <? 128)%nat && is_ascii s.
Proof. reflexivity. Qed.

Lemma is_ascii_split (sep : ascii) (s : string) :
  is_ascii s = true -> Forall (fun piece => is_ascii piece = true) (split sep s).
Proof.
  induction s as [| c rest IH]; intros Hs.
  - repeat constructor.
  - rewrite is_ascii_cons in Hs. apply andb_true_iff in Hs.
    destruct Hs as [Hc Hrest]. specialize (IH Hrest). cbn [split].
    destruct (Ascii.eqb c sep); [now constructor |].
    destruct (split sep rest) as [| piece pieces].
    + repeat constructor. now rewrite is_ascii_cons, Hc.
    + inversion IH; subst. constructor; [| assumption].
      rewrite is_ascii_cons, Hc. assumption.
Qed.

Lemma is_ascii_trimStart (s : string) :
  is_ascii s = true -> is_ascii (trimStart s) = true.
Proof.
  induction s as [| c rest IH]; intros Hs; [reflexivity |].
  cbn [trimStart]. destruct (is_space c); [| exact Hs].
  rewrite is_ascii_cons in Hs. apply andb_true_iff in Hs. now apply IH.
Qed.

Lemma is_ascii_trimEnd (s : string) :
  is_ascii s = true -> is_ascii (trimEnd s) = true.
Proof.
  induction s as [| c rest IH]; intros Hs; [reflexivity |].
  rewrite is_ascii_cons in Hs. apply andb_true_iff in Hs.
  destruct Hs as [Hc Hrest]. specialize (IH Hrest). rewrite trimEnd_cons.
  destruct (trimEnd rest) as [| d kept].
  - destruct (is_space c); [reflexivity |]. now rewrite is_ascii_cons, Hc.
  - now rewrite is_ascii_cons, Hc, IH.
Qed.

Lemma lower_ascii (c : ascii) :
  (nat_of_ascii (lower c) <? 128)%nat = (nat_of_ascii c <? 128)%nat.
Proof. destruct c as [[] [] [] [] [] [] [] []]; reflexivity. Qed.

Lemma is_ascii_toLowerCase (s : string) :
  is_ascii (toLowerCase s) = is_ascii s.
Proof.
  induction s as [| c rest IH]; [reflexivity |].
  cbn [toLowerCase]. now rewrite !is_ascii_cons, lower_ascii, IH.
Qed.

(** X9.  For an [ADMIN_EMAILS] value in the ASCII range: the allowlist is
    never empty, and every entry is normal, that is, in the ASCII range,
    unchanged by lower-casing and unchanged by trimming; so an entry never
    holds an upper-case letter or a blank at either end, however the value
    was written. *)
Theorem allowlist_entries_normal (w : World) :
  is_ascii (or_empty (env w "ADMIN_EMAILS")) = true ->
  ADMIN_EMAILS w <> []
  /\ (forall entry, In entry (ADMIN_EMAILS w) ->
                    is_ascii entry = true
                    /\ toLowerCase entry = entry
                    /\ trim entry = entry).
Proof.
  intros Hraw. unfold ADMIN_EMAILS. split.
  - pose proof (split_not_empty "," (or_empty (env w "ADMIN_EMAILS"))) as Hne.
    destruct (split "," (or_empty (env w "ADMIN_EMAILS"))); [contradiction |].
    discriminate.
  - intros entry Hin. apply in_map_iff in Hin. destruct Hin as (piece & <- & Hin).
    pose proof (is_ascii_split "," _ Hraw) as Hpieces.
    rewrite Forall_forall in Hpieces. specialize (Hpieces piece Hin).
    split; [| split].
    + rewrite is_ascii_toLowerCase. unfold trim.
      now apply is_ascii_trimEnd, is_ascii_trimStart.
    + apply toLowerCase_twice.
    + now rewrite trim_toLowerCase, trim_twice.
Qed.

(** X10.  A blank piece in [ADMIN_EMAILS], such as the one a trailing comma leaves,
    is the empty entry, and a verified user without e-mail passes the admin
    check on it. *)
Theorem blank_entry_admits_no_email (w : World) (req : Request number)
    (json : value) (token : string) (supabaseForAuth : Client)
    (r : UserResponse) (user : User) (piece : string) :
  In piece (split "," (or_empty (env w "ADMIN_EMAILS"))) ->
  trim piece = "" ->
  request_json req = Ok json ->
  get_token req = Some token -> token <> "" ->
  truthy_str (SUPABASE_URL w) = true ->
  truthy_str (SUPABASE_ANON w) = true ->
  truthy_str (SUPABASE_SERVICE_ROLE w) = true ->
  createClient w (or_empty (SUPABASE_URL w)) (or_empty (SUPABASE_ANON w))
    = Ok supabaseForAuth ->
  auth_getUser supabaseForAuth token = Ok r ->
  ur_error r = None ->
  optional_user (ur_data r) = Some user ->
  user_email user = None ->
  authorize w req = (Next json, [EGetUser token])
  /\ (forall listed, In "" (split "," (listed ++ ","))).
Proof.
  intros Hin Hblank Hjson Htok Hne Hurl Hanon Hrole Hc Hr Herr Huser Hmail.
  split.
  - apply (authorize_admin w req json token supabaseForAuth r user); auto.
    rewrite Hmail. cbn [or_empty toLowerCase].
    apply includes_In. unfold ADMIN_EMAILS. apply in_map_iff.
    exists piece. now rewrite Hblank.
  - intros listed. rewrite split_snoc. apply in_or_app. right. now left.
Qed.

(** ** When the store fails *)

(** X11.  A stored text that is not JSON makes [JSON.parse] throw: the answer is
    500 with the parser's message, after the download and without an
    upload. *)
Theorem unparsable_file_fails (w : World) (req : Request number) (body : value)
    (supabaseAdmin : Client) (r : DownloadResult) (downloadData : Blob)
    (e : JsError) (l1 : list Event) :
  authorize w req = (Next body, l1) ->
  createClient w (or_empty (SUPABASE_URL w)) (or_empty (SUPABASE_SERVICE_ROLE w))
    = Ok supabaseAdmin ->
  storage_download supabaseAdmin BUCKET FILE = Ok r ->
  (forall err, dl_error r = Some err -> se_status err = Some 404%Z) ->
  dl_data r = Some downloadData ->
  blob_text downloadData <> "" ->
  JSON_parse (blob_text downloadData) = Err e ->
  POST w req
  = (error_response 500 (error_text e), (l1 ++ [EDownload BUCKET FILE])%list).
Proof.
  intros Ha Hc Hr Herr Hdata Htxt Hparse.
  apply POST_thrown. unfold store_change.
  rewrite (bind_next _ _ body l1 Ha). cbn [fst snd].
  assert (Hd : download_props w = (Throw e, [EDownload BUCKET FILE])).
  { unfold download_props. rewrite Hc, bind_await_ok. unfold emit. cbn [bind].
    rewrite Hr, bind_await_ok, Hdata.
    apply String.eqb_neq in Htxt. rewrite Htxt, Hparse. cbn [negb].
    unfold status_is_not.
    destruct (dl_error r) as [err |]; [rewrite (Herr err eq_refl) |]; reflexivity. }
  now rewrite (bind_throw _ _ _ _ Hd).
Qed.

(** X12.  An upload that the store answers with an error gives 500 "Upload
    failed: " and the store's message; an upload that is rejected gives 500
    with the text of the rejection.  In both cases the upload is the last
    outside call: the deploy hook is not posted to. *)
Theorem failed_upload_skips_hook (w : World) (req : Request number)
    (body props props' : value) (supabaseAdmin : Client) (l1 l2 : list Event) :
  authorize w req = (Next body, l1) ->
  download_props w = (Next (supabaseAdmin, props), l2) ->
  apply_change body props = (Next props', []) ->
  (forall uploadError,
      storage_upload supabaseAdmin BUCKET FILE (JSON_stringify props' 2)
      = Ok {| ul_error := Some uploadError |} ->
      POST w req
      = (error_response 500 ("Upload failed: " ++ se_message uploadError),
         (l1 ++ l2 ++ [EUpload BUCKET FILE (JSON_stringify props' 2)])%list))
  /\ (forall e,
        storage_upload supabaseAdmin BUCKET FILE (JSON_stringify props' 2) = Err e ->
        POST w req
        = (error_response 500 (error_text e),
           (l1 ++ l2 ++ [EUpload BUCKET FILE (JSON_stringify props' 2)])%list)).
Proof.
  intros Ha Hd Hc.
  pose proof (store_change_from w req body props supabaseAdmin l1 l2 Ha Hd) as Hs.
  rewrite (bind_next _ _ props' [] Hc) in Hs. cbn [fst snd app] in Hs.
  unfold upload_back, emit in Hs. cbn [bind] in Hs.
  split.
  - intros uploadError Hu. rewrite Hu in Hs. cbn in Hs.
    exact (POST_replied _ _ _ _ Hs).
  - intros e Hu. rewrite Hu in Hs. cbn in Hs.
    exact (POST_thrown _ _ _ _ Hs).
Qed.

(** ** When a change cannot be applied *)

Lemma POST_change_thrown (w : World) (req : Request number) (body props : value)
    (c : Client) (l1 l2 : list Event) (e : JsError) :
  authorize w req = (Next body, l1) ->
  download_props w = (Next (c, props), l2) ->
  apply_change body props = (Throw e, []) ->
  POST w req = (error_response 500 (error_text e), (l1 ++ l2)%list).
Proof.
  intros Ha Hd Hc.
  pose proof (store_change_from w req body props c l1 l2 Ha Hd) as Hs.
  rewrite (bind_throw _ _ e [] Hc) in Hs. cbn [fst snd] in Hs.
  rewrite app_nil_r in Hs. exact (POST_thrown _ _ _ _ Hs).
Qed.

Lemma Array_map_ok (f : value -> result value) (items : list value) :
  is_ok (Array_map f items) = forallb (fun p => is_ok (f p)) items.
Proof.
  induction items as [| p rest IH]; [reflexivity |].
  cbn. destruct (f p); [| reflexivity]. cbn. rewrite <- IH.
  now destruct (Array_map f rest).
Qed.

Lemma Array_filter_ok (f : value -> result bool) (items : list value) :
  is_ok (Array_filter f items) = forallb (fun p => is_ok (f p)) items.
Proof.
  induction items as [| p rest IH]; [reflexivity |].
  cbn. destruct (f p); [| reflexivity]. cbn. rewrite <- IH.
  now destruct (Array_filter f rest).
Qed.

Lemma forallb_same {A : Type} (f g : A -> bool) (l : list A) :
  (forall x, f x = g x) -> forallb f l = forallb g l.
Proof.
  intros Hfg. induction l as [| x rest IH]; [reflexivity |].
  cbn. now rewrite Hfg, IH.
Qed.

Lemma forallb_both (items : list value) (b : bool) :
  forallb (fun p => is_ok (id_string p) && b) items = true <->
  Forall coercible items /\ (items = [] \/ b = true).
Proof.
  rewrite forallb_forall, Forall_forall. unfold coercible. split.
  - intros Hall. split.
    + intros p Hin. specialize (Hall p Hin). now apply andb_true_iff in Hall.
    + destruct items as [| p rest]; [now left | right].
      specialize (Hall p (or_introl eq_refl)). now apply andb_true_iff in Hall.
  - intros [Hall Hb] p Hin. apply andb_true_iff. split; [now apply Hall |].
    destruct Hb as [-> | Hb]; [contradiction | exact Hb].
Qed.

(** When [edit] and [delete] evaluate. *)
Lemma edit_delete_ok (items : list value) (property : value) :
  (is_ok (edit (VArr items) property) = true <->
   Forall coercible items /\ (items = [] \/ coercible property))
  /\ (is_ok (delete (VArr items) property) = true <->
      Forall coercible items /\ (items = [] \/ coercible property)).
Proof.
  split.
  - unfold edit.
    match goal with
    | |- is_ok (rbind ?m _) = true <-> _ =>
        replace (is_ok (rbind m (fun items' => Ok (VArr items'))))
          with (is_ok m) by now destruct m
    end.
    change (coercible property) with (is_ok (id_string property) = true).
    rewrite Array_map_ok, <- (forallb_both items (is_ok (id_string property))).
    erewrite forallb_same; [reflexivity |].
    intros p. cbn. destruct (id_string p); [| reflexivity].
    cbn. now destruct (id_string property).
  - unfold delete.
    match goal with
    | |- is_ok (rbind ?m _) = true <-> _ =>
        replace (is_ok (rbind m (fun items' => Ok (VArr items'))))
          with (is_ok m) by now destruct m
    end.
    change (coercible property) with (is_ok (id_string property) = true).
    rewrite Array_filter_ok, <- (forallb_both items (is_ok (id_string property))).
    erewrite forallb_same; [reflexivity |].
    intros p. cbn. destruct (id_string p); [| reflexivity].
    cbn. now destruct (id_string property).
Qed.

(** X13.  [edit] and [delete] go through exactly when the id of every element has
    a string and, unless the collection is empty, so has the id of the
    property; [add] goes through on every array, whatever the property. *)
Theorem changes_defined (items : list value) (property : value) :
  (is_ok (edit (VArr items) property) = true <->
   Forall coercible items /\ (items = [] \/ coercible property))
  /\ (is_ok (delete (VArr items) property) = true <->
      Forall coercible items /\ (items = [] \/ coercible property))
  /\ add (VArr items) property = Ok (VArr (items ++ [property])%list).
Proof.
  destruct (edit_delete_ok items property) as [Hedit Hdelete].
  split; [exact Hedit |]. split; [exact Hdelete | reflexivity].
Qed.

(** X14.  One element whose id has no string (a [null] element, an id that shadows
    [toString]) makes every [edit] and every [delete] request end in the
    outer [catch]: the answer is 500, and the collection is not uploaded,
    not even for the elements that could have been changed. *)
Theorem unconvertible_id_blocks_changes (w : World) (req : Request number)
    (body property bad : value) (action : string) (supabaseAdmin : Client)
    (items : list value) (l1 l2 : list Event) :
  authorize w req = (Next body, l1) ->
  download_props w = (Next (supabaseAdmin, VArr items), l2) ->
  Get body "action" = Ok (VStr action) ->
  action = "edit" \/ action = "delete" ->
  Get body "property" = Ok property ->
  truthy property = true ->
  In bad items ->
  is_ok (id_string bad) = false ->
  exists e, POST w req = (error_response 500 (error_text e), (l1 ++ l2)%list).
Proof.
  intros Ha Hd Hact Hwhich Hprop Htruthy Hin Hbad.
  assert (Hnot : ~ Forall coercible items).
  { rewrite Forall_forall. intros Hall. specialize (Hall bad Hin).
    unfold coercible in Hall. congruence. }
  destruct (edit_delete_ok items property) as [Hedit Hdelete].
  destruct Hwhich as [-> | ->].
  - destruct (edit (VArr items) property) as [v | e] eqn:He.
    + exfalso. apply Hnot. now apply Hedit.
    + exists e. apply (POST_change_thrown w req body (VArr items) supabaseAdmin);
        auto.
      rewrite (apply_change_action body (VArr items) property "edit" edit); auto.
      now rewrite He.
  - destruct (delete (VArr items) property) as [v | e] eqn:He.
    + exfalso. apply Hnot. now apply Hdelete.
    + exists e. apply (POST_change_thrown w req body (VArr items) supabaseAdmin);
        auto.
      rewrite (apply_change_action body (VArr items) property "delete" delete);
        auto 6.
      now rewrite He.
Qed.

(** X15.  A stored document that parses to something else than an array makes
    every [add], [edit] and [delete] request end in the outer [catch] with a
    TypeError: the answer is 500 and nothing is uploaded. *)
Theorem changes_need_an_array (w : World) (req : Request number)
    (body props property : value) (action : string) (supabaseAdmin : Client)
    (l1 l2 : list Event) :
  authorize w req = (Next body, l1) ->
  download_props w = (Next (supabaseAdmin, props), l2) ->
  (forall items, props <> VArr items) ->
  Get body "action" = Ok (VStr action) ->
  action = "add" \/ action = "edit" \/ action = "delete" ->
  Get body "property" = Ok property ->
  truthy property = true ->
  exists e, err_name e = "TypeError"
            /\ POST w req
               = (error_response 500 (error_text e), (l1 ++ l2)%list).
Proof.
  intros Ha Hd Hnot Hact Hwhich Hprop Htruthy.
  assert (Hthrow : forall method, err_name (not_an_array props method) = "TypeError")
    by (intros method; now destruct props).
  destruct Hwhich as [-> | [-> | ->]].
  - exists (not_an_array props "push"). split; [apply Hthrow |].
    apply (POST_change_thrown w req body props supabaseAdmin); auto.
    rewrite (apply_change_action body props property "add" add); auto.
    destruct props; try reflexivity. now contradiction (Hnot items).
  - exists (not_an_array props "map"). split; [apply Hthrow |].
    apply (POST_change_thrown w req body props supabaseAdmin); auto.
    rewrite (apply_change_action body props property "edit" edit); auto.
    destruct props; try reflexivity. now contradiction (Hnot items).
  - exists (not_an_array props "filter"). split; [apply Hthrow |].
    apply (POST_change_thrown w req body props supabaseAdmin); auto.
    rewrite (apply_change_action body props property "delete" delete); auto 6.
    destruct props; try reflexivity. now contradiction (Hnot items).
Qed.

(** ** How the changes combine *)

Lemma id_is_self (property : value) (key : string) :
  id_string property = Ok key -> id_is key property = true.
Proof. intros Hk. unfold id_is. rewrite Hk. apply String.eqb_refl. Qed.

Lemma coercible_edited (items : list value) (property : value) (key : string) :
  id_string property = Ok key ->
  Forall coercible items ->
  Forall coercible (map (fun p => if id_is key p then property else p) items).
Proof.
  intros Hk Hall. apply Forall_map. apply Forall_impl with (2 := Hall).
  intros p Hp. destruct (id_is key p); [| exact Hp].
  unfold coercible. now rewrite Hk.
Qed.

Lemma filter_edited (items : list value) (property : value) (key : string) :
  id_is key property = true ->
  filter (fun p => negb (id_is key p))
    (map (fun p => if id_is key p then property else p) items)
  = filter (fun p => negb (id_is key p)) items.
Proof.
  intros Hself. induction items as [| p rest IH]; [reflexivity |].
  cbn. destruct (id_is key p) eqn:Hp; cbn.
  - now rewrite Hself.
  - rewrite Hp. cbn. now rewrite IH.
Qed.

Lemma filter_filter {A : Type} (f g : A -> bool) (l : list A) :
  filter g (filter f l) = filter (fun x => f x && g x) l.
Proof.
  induction l as [| x rest IH]; [reflexivity |].
  cbn. destruct (f x); cbn; [destruct (g x) |]; now rewrite IH.
Qed.

(** X16.  After an [edit], every element with the id of the property is the
    property; the ids of the collection, position by position, are the ones
    it had; and the same [edit] again changes nothing. *)
Theorem edit_settles (items : list value) (property : value) (key : string) :
  id_string property = Ok key ->
  Forall coercible items ->
  exists once,
    edit (VArr items) property = Ok (VArr once)
    /\ edit (VArr once) property = Ok (VArr once)
    /\ map id_string once = map id_string items
    /\ (forall p, In p once -> id_is key p = true -> p = property).
Proof.
  intros Hk Hall.
  exists (map (fun p => if id_is key p then property else p) items).
  split; [exact (edit_items items property key Hk Hall) |].
  split.
  { rewrite (edit_items _ property key Hk (coercible_edited _ _ _ Hk Hall)).
    rewrite map_map. do 2 f_equal. apply map_ext. intros p.
    destruct (id_is key p) eqn:Hp; [| now rewrite Hp].
    now destruct (id_is key property). }
  split.
  { rewrite map_map. apply map_ext_in. intros p Hin.
    destruct (id_is key p) eqn:Hp; [| reflexivity].
    unfold id_is in Hp. rewrite Forall_forall in Hall.
    specialize (Hall p Hin). unfold coercible in Hall.
    destruct (id_string p) as [k |]; [| discriminate].
    apply String.eqb_eq in Hp. now subst. }
  intros p Hin Hp. apply in_map_iff in Hin. destruct Hin as (p0 & <- & _).
  destruct (id_is key p0) eqn:Hp0; [reflexivity | congruence].
Qed.

(** X17.  [delete] takes back an [add]: deleting the id of a property just added
    gives what deleting it before the [add] gives, which is the old
    collection when the id was new.  The same holds after an [edit]; and
    after a [delete] an [edit] for that id changes nothing. *)
Theorem delete_after_add_and_edit (items : list value) (property : value)
    (key : string) :
  id_string property = Ok key ->
  Forall coercible items ->
  (forall added, add (VArr items) property = Ok added ->
                 delete added property = delete (VArr items) property)
  /\ ((forall p, In p items -> id_is key p = false) ->
      forall added, add (VArr items) property = Ok added ->
                    delete added property = Ok (VArr items))
  /\ (forall edited, edit (VArr items) property = Ok edited ->
                     delete edited property = delete (VArr items) property)
  /\ (forall deleted, delete (VArr items) property = Ok deleted ->
                      edit deleted property = Ok deleted).
Proof.
  intros Hk Hall.
  assert (Hself : coercible property) by (unfold coercible; now rewrite Hk).
  assert (Hadd : delete (VArr (items ++ [property])%list) property
                 = delete (VArr items) property).
  { rewrite (delete_items _ property key Hk),
      (delete_items items property key Hk Hall).
    - rewrite filter_app. cbn. rewrite (id_is_self _ _ Hk). cbn.
      now rewrite app_nil_r.
    - apply Forall_app. split; [exact Hall | now constructor]. }
  split; [| split; [| split]].
  - intros added Ha. cbn in Ha. injection Ha as <-. exact Hadd.
  - intros Hnew added Ha. cbn in Ha. injection Ha as <-.
    rewrite Hadd, (delete_items items property key Hk Hall).
    do 2 f_equal. apply filter_untouched. intros p Hin.
    now rewrite (Hnew p Hin).
  - intros edited He. rewrite (edit_items items property key Hk Hall) in He.
    injection He as <-.
    rewrite (delete_items _ property key Hk (coercible_edited _ _ _ Hk Hall)),
      (delete_items items property key Hk Hall).
    now rewrite (filter_edited items property key (id_is_self _ _ Hk)).
  - intros deleted Hd. rewrite (delete_items items property key Hk Hall) in Hd.
    injection Hd as <-.
    rewrite (edit_items _ property key Hk (coercible_filter _ _ Hall)).
    do 2 f_equal. rewrite <- (map_id (filter _ items)) at 2.
    apply map_ext_in. intros p Hin. apply filter_In in Hin.
    destruct Hin as [_ Hp]. apply negb_true_iff in Hp. now rewrite Hp.
Qed.

(** X18.  Deleting two ids gives the same collection in either order. *)
Theorem deletes_commute (items : list value) (a b : value) (ka kb : string) :
  id_string a = Ok ka ->
  id_string b = Ok kb ->
  Forall coercible items ->
  (let* once := delete (VArr items) a in delete once b)
  = (let* once := delete (VArr items) b in delete once a)
  /\ (let* once := delete (VArr items) a in delete once b)
     = Ok (VArr (filter (fun p => negb (id_is ka p) && negb (id_is kb p)) items)).
Proof.
  intros Ha Hb Hall.
  assert (Hab : (let* once := delete (VArr items) a in delete once b)
                = Ok (VArr (filter (fun p => negb (id_is ka p) && negb (id_is kb p))
                              items))).
  { rewrite (delete_items items a ka Ha Hall). cbn [rbind].
    rewrite (delete_items _ b kb Hb (coercible_filter _ _ Hall)).
    now rewrite filter_filter. }
  split; [| exact Hab].
  rewrite Hab, (delete_items items b kb Hb Hall). cbn [rbind].
  rewrite (delete_items _ a ka Ha (coercible_filter _ _ Hall)).
  rewrite filter_filter. do 2 f_equal. apply filter_ext. intros p.
  apply andb_comm.
Qed.

(** ** The client module *)

(** X19.  The module loads exactly when both values are set and not empty, and
    then exports the client made from these two values; otherwise it throws
    "Missing SUPABASE env vars" whatever the client library would do. *)
Theorem supabase_needs_both (meta_env : string -> option string)
    (make make' : string -> string -> result Client) :
  (truthy_str (meta_env "VITE_SUPABASE_URL") = true ->
   truthy_str (meta_env "VITE_SUPABASE_ANON_KEY") = true ->
   exists url key,
     meta_env "VITE_SUPABASE_URL" = Some url /\ url <> ""
     /\ meta_env "VITE_SUPABASE_ANON_KEY" = Some key /\ key <> ""
     /\ supabase meta_env make = make url key)
  /\ (truthy_str (meta_env "VITE_SUPABASE_URL") = false
      \/ truthy_str (meta_env "VITE_SUPABASE_ANON_KEY") = false ->
      supabase meta_env make = Err (Error "Missing SUPABASE env vars")
      /\ supabase meta_env make' = supabase meta_env make).
Proof.
  unfold supabase. split.
  - intros Hu Hk. rewrite Hu, Hk. cbn [negb orb].
    destruct (meta_env "VITE_SUPABASE_URL") as [url |]; [| discriminate].
    destruct (meta_env "VITE_SUPABASE_ANON_KEY") as [key |]; [| discriminate].
    exists url, key. cbn in Hu, Hk.
    apply negb_true_iff, String.eqb_neq in Hu.
    apply negb_true_iff, String.eqb_neq in Hk. auto.
  - intros [-> | ->]; cbn [negb orb]; rewrite ?orb_true_r; auto.
Qed.

End Beyond.

(** * The handler at work

    The statements above, applied to requests against the [Fixture]
    deployments. *)

Import Fixture.

(** ** The built-ins on small inputs *)

Example split_header : split " " "Bearer abc def" = ["Bearer"; "abc"; "def"].
Proof. reflexivity. Qed.

Example split_nothing : split "," "" = [""].
Proof. reflexivity. Qed.

Example split_trailing : split "," "a@b.c," = ["a@b.c"; ""].
Proof. reflexivity. Qed.

Example trim_lower : toLowerCase (trim "  Admin@Example.COM ") = "admin@example.com".
Proof. reflexivity. Qed.

Example allowlist_of_site :
  ADMIN_EMAILS (site "[]") = ["admin@example.com"; "owner@example.com"].
Proof. reflexivity. Qed.

Example token_of_bearer :
  get_token (signed (change "add" titled)) = Some "token-of-admin".
Proof. reflexivity. Qed.

Example token_of_bare_scheme :
  get_token (request (Some "Bearer ") (Ok (change "add" titled))) = Some "".
Proof. reflexivity. Qed.

Example token_of_other_scheme :
  get_token (request (Some "Basic dXNlcjpwdw==") (Ok (change "add" titled))) = None.
Proof. reflexivity. Qed.

Example string_of_array :
  ToString (VArr [num 1; VNull; VStr "a"; VArr [num 2; num 3]]) = Ok "1,,a,2,3".
Proof. reflexivity. Qed.

Example string_of_object : ToString (VObj [("id", num 1)]) = Ok "[object Object]".
Proof. reflexivity. Qed.

Example string_of_shadowed_object :
  ToString (VObj [("toString", num 1)])
  = Err (TypeError "Cannot convert object to primitive value").
Proof. reflexivity. Qed.

Example id_of_number_and_string :
  id_string numbered = Ok "1" /\ id_string lettered = Ok "1".
Proof. split; reflexivity. Qed.

Example id_missing : id_string (VObj [("x", num 1)]) = Ok "undefined".
Proof. reflexivity. Qed.

Example id_of_null_element : is_ok (id_string (VNull : value Z)) = false.
Proof. reflexivity. Qed.

(** ** Requests *)

(** Where the hypothesis on the ids ends: over a collection with a [null]
    element, reading [p.id] throws inside [map], the outer [catch] answers
    500, and nothing is written. *)
Example edit_over_null_element :
  POST (site (stringify (VArr [VNull; first]) 2)) (signed (change "edit" revised))
  = (error_response 500 "Cannot read properties of null (reading 'id')",
     [EGetUser "token-of-admin"; EDownload BUCKET FILE]).
Proof. reflexivity. Qed.

(** A whole run: an empty file, an [add], the upload and the hook. *)
Example add_to_empty_file_and_hook :
  snd (POST (site "") (signed (change "add" titled)))
  = [EGetUser "token-of-admin"; EDownload BUCKET FILE;
     EUpload BUCKET FILE (stringify (VArr [titled]) 2);
     EFetch "https://api.vercel.com/hook"].
Proof. reflexivity. Qed.

(** C1, against the claim as stated.  A request without Authorization header
    and with a body that is not JSON is answered with 500 and the parser's
    message, not with 401. *)
Lemma missing_token_unparsed_body :
  headers_get unsigned_unparsed "authorization" = None
  /\ POST (site "[]") unsigned_unparsed
     = (error_response 500 "Unexpected end of JSON input", [])
  /\ fst (POST (site "[]") unsigned_unparsed)
     <> error_response 401 "Unauthorized - missing token".
Proof.
  split; [reflexivity |]. split; [reflexivity |].
  intros Heq. apply (f_equal status) in Heq. vm_compute in Heq. discriminate.
Qed.

(** A request with another authorization scheme. *)
Lemma missing_token_unauthorized_witness :
  request_json (request (Some "Basic dXNlcjpwdw==") (Ok (change "add" titled)))
  = Ok (change "add" titled)
  /\ POST (site "[]") (request (Some "Basic dXNlcjpwdw==") (Ok (change "add" titled)))
     = (error_response 401 "Unauthorized - missing token", []).
Proof.
  split; [reflexivity |].
  apply (missing_token_unauthorized (site "[]") _ (change "add" titled)).
  - reflexivity.
  - intros h Hh. cbn in Hh. injection Hh as <-. reflexivity.
Defined.


(** Editing the first of two properties: the second stays, in place. *)
Lemma edit_replaces_matching_witness :
  Forall coercible [first; second]
  /\ uploads (snd (POST (site (stringify (VArr [first; second]) 2))
                     (signed (change "edit" revised))))
     = [stringify (VArr [revised; second]) 2].
Proof.
  assert (Hall : Forall coercible [first; second])
    by (repeat constructor).
  split; [exact Hall |].
  pose proof (edit_replaces_matching
                (site (stringify (VArr [first; second]) 2))
                (signed (change "edit" revised)) (change "edit" revised)
                (client admin (file (stringify (VArr [first; second]) 2)) stored)
                [first; second] [("id", VStr "1"); ("x", num 99)] "1"
                [EGetUser "token-of-admin"] [EDownload BUCKET FILE]
                eq_refl eq_refl eq_refl eq_refl eq_refl Hall) as Hw.
  cbv zeta in Hw. exact (proj1 Hw).
Defined.

(** Deleting id "1" where one id is the number and one the string. *)
Lemma delete_removes_matching_witness :
  Forall coercible [numbered; lettered]
  /\ uploads (snd (POST (site (stringify (VArr [numbered; lettered]) 2))
                     (signed (change "delete" (only_id "1")))))
     = [stringify (VArr []) 2]
  /\ delete (VArr [numbered; lettered]) (only_id "1") = Ok (VArr []).
Proof.
  assert (Hall : Forall coercible [numbered; lettered])
    by (repeat constructor).
  split; [exact Hall |].
  pose proof (delete_removes_matching
                (site (stringify (VArr [numbered; lettered]) 2))
                (signed (change "delete" (only_id "1")))
                (change "delete" (only_id "1"))
                (client admin (file (stringify (VArr [numbered; lettered]) 2)) stored)
                [numbered; lettered] [("id", VStr "1")] "1"
                [EGetUser "token-of-admin"] [EDownload BUCKET FILE]
                eq_refl eq_refl eq_refl eq_refl eq_refl Hall) as Hw.
  cbv zeta in Hw. destruct Hw as (Hup & _ & _ & _ & Hmixed).
  split; [exact Hup |].
  exact (Hmixed 1%Z (num 1) (num 2) eq_refl).
Defined.

(** C5, against the claim as stated.  An action that is present and is the
    empty string is none of the three actions, and the answer is "Bad
    request", not "Unknown action". *)
Lemma unknown_action_empty_string :
  Get (change "" titled) "action" = Ok (VStr "")
  /\ Get (change "" titled) "property" = Ok titled
  /\ fst (POST (site "[]") (signed (change "" titled)))
     = error_response 400 "Bad request"
  /\ fst (POST (site "[]") (signed (change "" titled)))
     <> error_response 400 "Unknown action".
Proof.
  repeat (split; [reflexivity |]).
  intros Heq. apply (f_equal body) in Heq. vm_compute in Heq. discriminate.
Qed.

(** An action the handler does not know. *)
Lemma unknown_action_rejected_witness :
  truthy (VStr "bogus" : value Z) = true
  /\ truthy titled = true
  /\ fst (POST (site "[]") (signed (change "bogus" titled)))
     = error_response 400 "Unknown action"
  /\ uploads (snd (POST (site "[]") (signed (change "bogus" titled)))) = [].
Proof.
  split; [reflexivity |]. split; [reflexivity |].
  apply (unknown_action_rejected (site "[]") (signed (change "bogus" titled))
           (change "bogus" titled) (VArr []) (VStr "bogus") titled
           (client admin (file "[]") stored)
           [EGetUser "token-of-admin"] [EDownload BUCKET FILE]);
    try reflexivity; discriminate.
Defined.

(** Deleting the first of two properties, twice. *)
Lemma delete_idempotent_witness :
  Forall coercible [first; second]
  /\ delete (VArr [first; second]) (only_id "1") = Ok (VArr [second])
  /\ delete (VArr [second]) (only_id "1") = Ok (VArr [second])
  /\ (let* once := delete (VArr [first; second]) (only_id "1") in
      delete once (only_id "1"))
     = delete (VArr [first; second]) (only_id "1").
Proof.
  assert (Hall : Forall coercible [first; second])
    by (repeat constructor).
  split; [exact Hall |].
  destruct (delete_idempotent [first; second] [("id", VStr "1")])
    as (Hpair & _ & Hplain).
  pose proof (Hplain "1" eq_refl Hall) as Hw.
  cbv zeta in Hw. destruct Hw as (Honce & Htwice & _).
  split; [exact Honce |]. split; [exact Htwice | exact Hpair].
Defined.

(** A store without the file, and a store that is down. *)
Lemma read_collection_normalized_witness :
  download_props (site_unread (Some 404%Z) "Object not found")
  = (Next (client admin (failed (Some 404%Z) "Object not found") stored, VArr []),
     [EDownload BUCKET FILE])
  /\ fst (POST (site_unread (Some 503%Z) "Service unavailable")
            (signed (change "add" titled)))
     = error_response 500 "Failed to read properties.json: Service unavailable".
Proof.
  split.
  - refine (proj1 (read_collection_normalized
                     (site_unread (Some 404%Z) "Object not found")
                     (client admin (failed (Some 404%Z) "Object not found") stored)
                     (failed (Some 404%Z) "Object not found") eq_refl eq_refl)
              _ eq_refl eq_refl eq_refl).
  - pose proof (read_collection_normalized
                  (site_unread (Some 503%Z) "Service unavailable")
                  (client admin (failed (Some 503%Z) "Service unavailable") stored)
                  (failed (Some 503%Z) "Service unavailable") eq_refl eq_refl)
      as (_ & _ & _ & Hother).
    destruct (Hother _ eq_refl ltac:(discriminate)
                (signed (change "add" titled)) (change "add" titled)
                [EGetUser "token-of-admin"] eq_refl) as [Hpost _].
    now rewrite Hpost.
Defined.

(** A hook that cannot be reached. *)
Lemma hook_failure_ignored_witness :
  fetch (site_unhooked "[]") (VERCEL_HOOK (site_unhooked "[]"))
  = Err (TypeError "fetch failed")
  /\ fst (POST (site_unhooked "[]") (signed (change "add" titled))) = ok_response.
Proof.
  split; [reflexivity |].
  refine (proj1 (hook_failure_ignored (site_unhooked "[]")
                   (signed (change "add" titled))
                   [EGetUser "token-of-admin"; EDownload BUCKET FILE;
                    EUpload BUCKET FILE (stringify (VArr [titled]) 2)]
                   eq_refl)).
Defined.

(** No allowlist configured, a user without e-mail. *)
Lemma empty_allowlist_admits_witness :
  env (site_open "[]") "ADMIN_EMAILS" = None
  /\ ADMIN_EMAILS (site_open "[]") = [""]
  /\ authorize (site_open "[]") (signed (change "add" titled))
     = (Next (change "add" titled), [EGetUser "token-of-admin"]).
Proof.
  split; [reflexivity |].
  destruct (empty_allowlist_admits (site_open "[]") (signed (change "add" titled))
              (change "add" titled) "token-of-admin"
              (client no_email (file "[]") stored) no_email
              {| user_email := None |} (or_introl eq_refl))
    as [Hlist Hpass].
  split; [exact Hlist |].
  refine (proj1 (Hpass eq_refl eq_refl _ eq_refl eq_refl eq_refl eq_refl eq_refl
                   eq_refl eq_refl eq_refl)).
  discriminate.
Defined.

(** An action that is the empty string. *)
Lemma falsy_fields_bad_request_witness :
  truthy (VStr "" : value Z) = false
  /\ fst (POST (site "[]") (signed (change "" titled)))
     = error_response 400 "Bad request"
  /\ uploads (snd (POST (site "[]") (signed (change "" titled)))) = [].
Proof.
  split; [reflexivity |].
  refine (proj1 (falsy_fields_bad_request (site "[]") (signed (change "" titled))
                   (change "" titled) (VArr []) (VStr "") titled
                   (client admin (file "[]") stored)
                   [EGetUser "token-of-admin"] [EDownload BUCKET FILE]
                   eq_refl eq_refl eq_refl eq_refl (or_introl eq_refl))).
Defined.

(** ** More requests *)

(** An accepted [add]: status 200, and the hook posted to once. *)
Lemma ok_only_after_accepted_upload_witness :
  status (fst (POST (site "[]") (signed (change "add" titled)))) = 200%Z
  /\ fst (POST (site "[]") (signed (change "add" titled))) = ok_response
  /\ fetches (snd (POST (site "[]") (signed (change "add" titled))))
     = [VERCEL_HOOK (site "[]")].
Proof.
  split; [reflexivity |].
  destruct (ok_only_after_accepted_upload (site "[]") (signed (change "add" titled)))
    as [Hok Hhook].
  split; [exact (proj1 (Hok eq_refl)) |].
  refine (proj2 (Hhook _)). intros Hnone. vm_compute in Hnone. discriminate.
Defined.

(** The token of a header with two words after the scheme. *)
Lemma token_is_second_word_witness :
  get_token (request (Some "Bearer abc def") (Ok (change "add" titled))) = Some "abc"
  /\ ~ In " "%char (list_ascii_of_string "abc").
Proof.
  split; [reflexivity |].
  exact (proj2 (token_is_second_word
                  (request (Some "Bearer abc def") (Ok (change "add" titled))) "abc")
           eq_refl).
Defined.

(** Two spaces after the scheme: the token is empty. *)
Lemma empty_token_unauthorized_witness :
  first_word " abc" = ""
  /\ POST (site "[]") (request (Some "Bearer  abc") (Ok (change "add" titled)))
     = (error_response 401 "Unauthorized - missing token", []).
Proof.
  split; [reflexivity |].
  exact (proj2 (empty_token_unauthorized (site "[]")
                  (request (Some "Bearer  abc") (Ok (change "add" titled)))
                  (change "add" titled) " abc" eq_refl eq_refl eq_refl)).
Defined.

(** A deployment without the service role key. *)
Lemma misconfigured_server_witness :
  truthy_str (SUPABASE_SERVICE_ROLE site_keyless) = false
  /\ POST site_keyless (signed (change "add" titled))
     = (error_response 500 "Server misconfiguration", []).
Proof.
  split; [reflexivity |].
  apply (misconfigured_server site_keyless (signed (change "add" titled))
           (change "add" titled) eq_refl eq_refl).
  right. right. reflexivity.
Defined.

(** A token that has expired. *)
Lemma invalid_token_rejected_witness :
  ur_error expired <> None
  /\ POST (site_for (Some "admin@example.com") expired) (signed (change "add" titled))
     = (error_response 401 "Invalid token", [EGetUser "token-of-admin"]).
Proof.
  split; [discriminate |].
  apply (invalid_token_rejected (site_for (Some "admin@example.com") expired)
           (signed (change "add" titled)) (change "add" titled) "token-of-admin"
           (client expired (file "[]") stored) expired);
    try reflexivity; [discriminate | left; discriminate].
Defined.

(** A user who is not on the list. *)
Lemma non_admin_forbidden_witness :
  is_ascii "admin@example.com" = true
  /\ is_ascii "guest@example.com" = true
  /\ includes (ADMIN_EMAILS (site_for (Some "admin@example.com") visitor))
       "guest@example.com" = false
  /\ POST (site_for (Some "admin@example.com") visitor) (signed (change "add" titled))
     = (error_response 403 "Forbidden - not an admin", [EGetUser "token-of-admin"]).
Proof.
  split; [reflexivity |]. split; [reflexivity |]. split; [reflexivity |].
  apply (non_admin_forbidden (site_for (Some "admin@example.com") visitor)
           (signed (change "add" titled)) (change "add" titled) "token-of-admin"
           (client visitor (file "[]") stored) visitor
           {| user_email := Some "guest@example.com" |});
    try reflexivity; discriminate.
Defined.

(** An entry written with capitals and blanks around it. *)
Lemma allowlist_entries_normal_witness :
  is_ascii " Admin@Example.com ,b@c.d" = true
  /\ In "admin@example.com"
       (ADMIN_EMAILS (site_for (Some " Admin@Example.com ,b@c.d") admin))
  /\ toLowerCase "admin@example.com" = "admin@example.com"
  /\ trim "admin@example.com" = "admin@example.com".
Proof.
  assert (Hin : In "admin@example.com"
                  (ADMIN_EMAILS (site_for (Some " Admin@Example.com ,b@c.d") admin)))
    by (now left).
  split; [reflexivity |]. split; [exact Hin |].
  destruct (allowlist_entries_normal
              (site_for (Some " Admin@Example.com ,b@c.d") admin) eq_refl)
    as (_ & Hnormal).
  destruct (Hnormal "admin@example.com" Hin) as (_ & Hlower & Htrim).
  split; [exact Hlower | exact Htrim].
Defined.

(** A list that ends with a comma, a user without e-mail. *)
Lemma blank_entry_admits_no_email_witness :
  In "" (split "," "admin@example.com,")
  /\ authorize (site_for (Some "admin@example.com,") no_email)
       (signed (change "add" titled))
     = (Next (change "add" titled), [EGetUser "token-of-admin"]).
Proof.
  assert (Hin : In "" (split "," "admin@example.com,")) by (right; now left).
  split; [exact Hin |].
  refine (proj1 (blank_entry_admits_no_email
                   (site_for (Some "admin@example.com,") no_email)
                   (signed (change "add" titled)) (change "add" titled)
                   "token-of-admin" (client no_email (file "[]") stored) no_email
                   {| user_email := None |} "" Hin eq_refl eq_refl eq_refl _
                   eq_refl eq_refl eq_refl eq_refl eq_refl eq_refl eq_refl eq_refl)).
  discriminate.
Defined.

(** A file that does not hold JSON. *)
Lemma unparsable_file_fails_witness :
  JSON_parse "not json" = Err (SyntaxError "Unexpected token in JSON")
  /\ POST (site "not json") (signed (change "add" titled))
     = (error_response 500 "Unexpected token in JSON",
        [EGetUser "token-of-admin"; EDownload BUCKET FILE]).
Proof.
  split; [reflexivity |].
  apply (unparsable_file_fails (site "not json") (signed (change "add" titled))
           (change "add" titled) (client admin (file "not json") stored)
           (file "not json") {| blob_text := "not json" |}
           (SyntaxError "Unexpected token in JSON") [EGetUser "token-of-admin"]);
    try reflexivity; discriminate.
Defined.

(** A store that refuses the upload. *)
Lemma failed_upload_skips_hook_witness :
  POST (site_unwritable "[]" "Payload too large") (signed (change "add" titled))
  = (error_response 500 "Upload failed: Payload too large",
     [EGetUser "token-of-admin"; EDownload BUCKET FILE;
      EUpload BUCKET FILE (stringify (VArr [titled]) 2)]).
Proof.
  refine (proj1 (failed_upload_skips_hook
                   (site_unwritable "[]" "Payload too large")
                   (signed (change "add" titled)) (change "add" titled)
                   (VArr []) (VArr [titled])
                   (client admin (file "[]")
                      {| ul_error := Some {| se_status := Some 413%Z;
                                             se_message := "Payload too large" |} |})
                   [EGetUser "token-of-admin"] [EDownload BUCKET FILE]
                   eq_refl eq_refl eq_refl)
            {| se_status := Some 413%Z; se_message := "Payload too large" |} eq_refl).
Defined.

(** Two plain records: an [edit] goes through. *)
Lemma changes_defined_witness :
  Forall coercible [first; second]
  /\ is_ok (edit (VArr [first; second]) revised) = true.
Proof.
  assert (Hall : Forall coercible [first; second]) by (repeat constructor).
  split; [exact Hall |].
  apply (proj1 (changes_defined [first; second] revised)).
  split; [exact Hall | right; reflexivity].
Defined.

(** A collection with a [null] element. *)
Lemma unconvertible_id_blocks_changes_witness :
  is_ok (id_string (VNull : value Z)) = false
  /\ exists e,
       POST (site (stringify (VArr [VNull; first]) 2)) (signed (change "edit" revised))
       = (error_response 500 (error_text e),
          [EGetUser "token-of-admin"; EDownload BUCKET FILE]).
Proof.
  split; [reflexivity |].
  apply (unconvertible_id_blocks_changes
           (site (stringify (VArr [VNull; first]) 2))
           (signed (change "edit" revised)) (change "edit" revised) revised VNull
           "edit" (client admin (file (stringify (VArr [VNull; first]) 2)) stored)
           [VNull; first] [EGetUser "token-of-admin"] [EDownload BUCKET FILE]);
    try reflexivity; [now left | now left].
Defined.

(** A file that holds one record instead of an array of records. *)
Lemma changes_need_an_array_witness :
  @download_props Z (runtime_among [first]) (site (stringify first 2))
  = (Next (client admin (file (stringify first 2)) stored, first),
     [EDownload BUCKET FILE])
  /\ exists e,
       err_name e = "TypeError"
       /\ @POST Z (runtime_among [first]) (site (stringify first 2))
            (signed (change "add" titled))
          = (@error_response Z (runtime_among [first]) 500 (error_text e),
             [EGetUser "token-of-admin"; EDownload BUCKET FILE]).
Proof.
  split; [reflexivity |].
  apply (@changes_need_an_array Z (runtime_among [first])
           (site (stringify first 2)) (signed (change "add" titled))
           (change "add" titled) first titled "add"
           (client admin (file (stringify first 2)) stored)
           [EGetUser "token-of-admin"] [EDownload BUCKET FILE]);
    try reflexivity; [discriminate | now left].
Defined.

(** Editing the first of two records. *)
Lemma edit_settles_witness :
  Forall coercible [first; second]
  /\ exists once,
       edit (VArr [first; second]) revised = Ok (VArr once)
       /\ edit (VArr once) revised = Ok (VArr once)
       /\ map id_string once = map id_string [first; second].
Proof.
  assert (Hall : Forall coercible [first; second]) by (repeat constructor).
  split; [exact Hall |].
  destruct (edit_settles [first; second] revised "1" eq_refl Hall)
    as (once & H1 & H2 & H3 & _).
  exists once. auto.
Defined.

(** Adding a record with a new id and deleting it again. *)
Lemma delete_after_add_and_edit_witness :
  Forall coercible [second]
  /\ add (VArr [second]) first = Ok (VArr [second; first])
  /\ delete (VArr [second; first]) first = Ok (VArr [second]).
Proof.
  assert (Hall : Forall coercible [second]) by (repeat constructor).
  split; [exact Hall |]. split; [reflexivity |].
  destruct (delete_after_add_and_edit [second] first "1" eq_refl Hall)
    as (_ & Hnew & _).
  apply Hnew; [| reflexivity].
  intros p [<- | []]. reflexivity.
Defined.

(** Deleting both records of a collection, in the two orders. *)
Lemma deletes_commute_witness :
  Forall coercible [first; second]
  /\ (let* once := delete (VArr [first; second]) (only_id "1") in
      delete once (only_id "2"))
     = (let* once := delete (VArr [first; second]) (only_id "2") in
        delete once (only_id "1")).
Proof.
  assert (Hall : Forall coercible [first; second]) by (repeat constructor).
  split; [exact Hall |].
  exact (proj1 (deletes_commute [first; second] (only_id "1") (only_id "2")
                  "1" "2" eq_refl eq_refl Hall)).
Defined.

(** The module on the environment of the usual deployment, and on one
    without the public key. *)
Lemma supabase_needs_both_witness :
  supabase (env (site "[]")) (createClient (site "[]"))
  = createClient (site "[]") "https://project.supabase.co" "anon-key"
  /\ supabase (fun name => if name =? "VITE_SUPABASE_URL" then Some "u" else None)
       (createClient (site "[]"))
     = Err (Error "Missing SUPABASE env vars").
Proof.
  split.
  - destruct (proj1 (supabase_needs_both (env (site "[]"))
                       (createClient (site "[]")) (createClient (site "[]")))
                eq_refl eq_refl)
      as (url & key & Hu & _ & Hk & _ & Hs).
    injection Hu as <-. injection Hk as <-. exact Hs.
  - refine (proj1 (proj2 (supabase_needs_both
                            (fun name => if name =? "VITE_SUPABASE_URL"
                                         then Some "u" else None)
                            (createClient (site "[]")) (createClient (site "[]")))
                     _)).
    right. reflexivity.
Defined.

(** ** Collections the changes cannot read *)

(** C3, against the claim as stated.  The stored collection is a JSON array
    whose second element has the id of the property, and the request is an
    authorized [edit] with a property object; reading [p.id] of the [null]
    element throws, the answer is 500 and nothing is written, so the matching
    element is not replaced.  The same happens over a collection holding a
    property that [add] accepted and whose id shadows [toString], and for a
    property whose own id does. *)
Lemma edit_throws_on_unconvertible_id :
  download_props (site (stringify (VArr [VNull; first]) 2))
  = (Next (client admin (file (stringify (VArr [VNull; first]) 2)) stored,
           VArr [VNull; first]),
     [EDownload BUCKET FILE])
  /\ id_string first = id_string revised
  /\ POST (site (stringify (VArr [VNull; first]) 2)) (signed (change "edit" revised))
     = (error_response 500 "Cannot read properties of null (reading 'id')",
        [EGetUser "token-of-admin"; EDownload BUCKET FILE])
  /\ uploads (snd (POST (site (stringify (VArr [VNull; first]) 2))
                     (signed (change "edit" revised)))) = []
  /\ add (VArr []) shadowed = Ok (VArr [shadowed])
  /\ is_ok (edit (VArr [shadowed; first]) revised) = false
  /\ is_ok (edit (VArr [first]) shadowed) = false.
Proof. repeat split; reflexivity. Qed.

(** C4, against the claim as stated.  Over the same stored array an
    authorized [delete] of id "1", which the second element has, throws on the
    [null] element: the answer is 500 and nothing is written, so the matching
    element is not removed. *)
Lemma delete_throws_on_unconvertible_id :
  download_props (site (stringify (VArr [VNull; first]) 2))
  = (Next (client admin (file (stringify (VArr [VNull; first]) 2)) stored,
           VArr [VNull; first]),
     [EDownload BUCKET FILE])
  /\ id_string first = id_string (only_id "1")
  /\ POST (site (stringify (VArr [VNull; first]) 2))
       (signed (change "delete" (only_id "1")))
     = (error_response 500 "Cannot read properties of null (reading 'id')",
        [EGetUser "token-of-admin"; EDownload BUCKET FILE])
  /\ uploads (snd (POST (site (stringify (VArr [VNull; first]) 2))
                     (signed (change "delete" (only_id "1"))))) = []
  /\ add (VArr []) shadowed = Ok (VArr [shadowed])
  /\ is_ok (delete (VArr [shadowed; first]) (only_id "1")) = false
  /\ is_ok (delete (VArr [first]) shadowed) = false.
Proof. repeat split; reflexivity. Qed.

(** C6, against the claim as stated.  Over the same stored array an
    authorized [delete] of id "9", which no element has, does not succeed:
    the answer is 500, not the [ok] response, and the collection is not
    written back. *)
Lemma delete_of_absent_id_fails :
  download_props (site (stringify (VArr [VNull; first]) 2))
  = (Next (client admin (file (stringify (VArr [VNull; first]) 2)) stored,
           VArr [VNull; first]),
     [EDownload BUCKET FILE])
  /\ id_string first = Ok "1"
  /\ id_string (only_id "9") = Ok "9"
  /\ POST (site (stringify (VArr [VNull; first]) 2))
       (signed (change "delete" (only_id "9")))
     = (error_response 500 "Cannot read properties of null (reading 'id')",
        [EGetUser "token-of-admin"; EDownload BUCKET FILE])
  /\ status (fst (POST (site (stringify (VArr [VNull; first]) 2))
                    (signed (change "delete" (only_id "9"))))) = 500%Z
  /\ fst (POST (site (stringify (VArr [VNull; first]) 2))
            (signed (change "delete" (only_id "9"))))
     <> ok_response
  /\ is_ok (delete (VArr [shadowed]) (only_id "9")) = false.
Proof.
  repeat (split; [reflexivity |]).
  split; [| reflexivity].
  intros Heq. apply (f_equal status) in Heq. vm_compute in Heq. discriminate.
Qed.
